(** * NOAA GHCN-Daily import: the record parser and the batch loader

    A shallow embedding of [scripts/import_noaa.py]: the fixed-width
    decoder [parse_dly_file], the batching loop of [import_weather_data],
    the upsert issued by [insert_batch] and the station decoder of
    [download_stations].

    Conventions.
    - A Python [str] is a [string]; a character stands for the code point
      of the same number, so the texts covered are those of code points
      below 256 (the archive itself is plain ASCII).
    - A Python [int] is a [Z]; a Python [float] is a primitive binary64
      [float].
    - A function that can raise returns a [result]; [Raise e] is the
      exception [e] leaving the function.
    - A [dict] whose iteration order is observed is an association list in
      insertion order; the inner per-date [dict] is a [gmap]. *)

From Stdlib Require Import ZArith Lia Bool.
From Stdlib Require Import Strings.Ascii Strings.String.
From Stdlib Require Import Floats.SpecFloat Floats.PrimFloat Floats.FloatOps.
From Stdlib Require Import Numbers.Cyclic.Int63.Uint63.
From stdpp Require Import base option list strings gmap.

Open Scope Z_scope.

(** ** Exceptions *)

(** [ValueError] and [OverflowError] are Python's; [CardinalityViolation]
    is the database error psycopg2 raises for a statement that would
    touch one row twice. *)
Inductive exn := ValueError | OverflowError | CardinalityViolation.

Inductive result (A : Type) :=
| Ok (a : A)
| Raise (e : exn).
Arguments Ok {A} a.
Arguments Raise {A} e.

Definition bind {A B} (m : result A) (k : A -> result B) : result B :=
  match m with
  | Ok a => k a
  | Raise e => Raise e
  end.

Notation "'let*' x ':=' m 'in' k" := (bind m (fun x => k))
  (at level 10, x name, m at level 100, k at level 200).

(** [int(s)] and [date(y, m, d)] signal a bad argument with [ValueError]. *)
Definition or_value_error {A} (o : option A) : result A :=
  match o with
  | Some a => Ok a
  | None => Raise ValueError
  end.

(** A [for] loop whose body may raise. *)
Fixpoint for_each {A S} (body : A -> S -> result S) (xs : list A) (s : S) : result S :=
  match xs with
  | [] => Ok s
  | x :: xs' => let* s' := body x s in for_each body xs' s'
  end.

(** ** Strings *)

Definition code (c : ascii) : N := Ascii.N_of_ascii c.

(** [str.isspace] on one character: TAB..CR, FS..US, space, NEL, NBSP. *)
Definition is_space (c : ascii) : bool :=
  let n := code c in
  ((9 <=? n) && (n <=? 13) || (28 <=? n) && (n <=? 32) || (n =? 133) || (n =? 160))%N.

(** The white space [int()] skips around a literal: the C [isspace] set for
    ASCII, and the Unicode spaces above it. *)
Definition is_int_space (c : ascii) : bool :=
  let n := code c in
  ((9 <=? n) && (n <=? 13) || (n =? 32) || (n =? 133) || (n =? 160))%N.

Fixpoint lstrip_by (p : ascii -> bool) (s : string) : string :=
  match s with
  | EmptyString => EmptyString
  | String c s' => if p c then lstrip_by p s' else s
  end.

Fixpoint rstrip_by (p : ascii -> bool) (s : string) : string :=
  match s with
  | EmptyString => EmptyString
  | String c s' =>
      match rstrip_by p s' with
      | EmptyString => if p c then EmptyString else String c EmptyString
      | r => String c r
      end
  end.

(** [s.strip()] *)
Definition strip (s : string) : string := rstrip_by is_space (lstrip_by is_space s).

Fixpoint drop_chars (n : nat) (s : string) : string :=
  match n, s with
  | O, _ => s
  | S _, EmptyString => EmptyString
  | S n', String _ s' => drop_chars n' s'
  end.

Fixpoint take_chars (n : nat) (s : string) : string :=
  match n, s with
  | O, _ => EmptyString
  | S _, EmptyString => EmptyString
  | S n', String c s' => String c (take_chars n' s')
  end.

(** [s[a:b]] for non-negative [a] and [b]: clipped at the end of [s]. *)
Definition slice (a b : nat) (s : string) : string :=
  take_chars (b - a) (drop_chars a s).

(** [s.split(sep)] for a one-character separator. *)
Fixpoint split_on (sep : ascii) (s : string) : list string :=
  match s with
  | EmptyString => [EmptyString]
  | String c s' =>
      if Ascii.eqb c sep then EmptyString :: split_on sep s'
      else match split_on sep s' with
           | [] => [String c EmptyString]
           | w :: ws => String c w :: ws
           end
  end.

Fixpoint startswith (prefix s : string) : bool :=
  match prefix, s with
  | EmptyString, _ => true
  | String _ _, EmptyString => false
  | String a p', String b s' => Ascii.eqb a b && startswith p' s'
  end.

(** [str.lower] on one character: A..Z, and the capital letters of the
    upper half (all of 192..222 but the multiplication sign). *)
Definition lower_char (c : ascii) : ascii :=
  let n := code c in
  if ((65 <=? n) && (n <=? 90) || (192 <=? n) && (n <=? 222) && negb (n =? 215))%N
  then Ascii.ascii_of_N (n + 32) else c.

Fixpoint lower (s : string) : string :=
  match s with
  | EmptyString => EmptyString
  | String c s' => String (lower_char c) (lower s')
  end.

(** ** [int(s)] *)

Definition digit (c : ascii) : option Z :=
  let n := code c in
  if ((48 <=? n) && (n <=? 57))%N then Some (Z.of_N (n - 48)) else None.

(** Digits after the first one; a single underscore may sit between two
    digits. [after_us] records that the previous character was one. *)
Fixpoint int_digits (acc : Z) (after_us : bool) (s : string) : option Z :=
  match s with
  | EmptyString => if after_us then None else Some acc
  | String c s' =>
      if Ascii.eqb c "_" then
        if after_us then None else int_digits acc true s'
      else
        match digit c with
        | Some d => int_digits (10 * acc + d) false s'
        | None => None
        end
  end.

Definition int_unsigned (s : string) : option Z :=
  match s with
  | EmptyString => None
  | String c s' =>
      match digit c with
      | Some d => int_digits d false s'
      | None => None
      end
  end.

Definition int_signed (s : string) : option Z :=
  match s with
  | String "+" r => int_unsigned r
  | String "-" r => Z.opp <$> int_unsigned r
  | _ => int_unsigned s
  end.

(** [int(s)]; [None] is [ValueError]. *)
Definition py_int (s : string) : option Z :=
  int_signed (rstrip_by is_int_space (lstrip_by is_int_space s)).

(** ** [datetime.date] *)

Record date := Date { year : Z; month : Z; day : Z }.

Global Instance date_eq_dec : EqDecision date.
Proof. solve_decision. Defined.

Definition is_leap (y : Z) : bool :=
  (y mod 4 =? 0) && (negb (y mod 100 =? 0) || (y mod 400 =? 0)).

Definition days_in_month (y m : Z) : Z :=
  match m with
  | 1 | 3 | 5 | 7 | 8 | 10 | 12 => 31
  | 4 | 6 | 9 | 11 => 30
  | 2 => if is_leap y then 29 else 28
  | _ => 0
  end.

(** [date(y, m, d)]; [None] is [ValueError]. *)
Definition py_date (y m d : Z) : option date :=
  if (1 <=? y) && (y <=? 9999) && (1 <=? m) && (m <=? 12)
     && (1 <=? d) && (d <=? days_in_month y m)
  then Some (Date y m d) else None.

(** ** Floats *)

(** An [int] as a [float], exact for magnitudes up to [2^53]. *)
Definition float_of_int (z : Z) : float :=
  match z with
  | Z0 => PrimFloat.zero
  | Zpos _ => PrimFloat.of_uint63 (Uint63.of_Z z)
  | Zneg p => PrimFloat.opp (PrimFloat.of_uint63 (Uint63.of_Z (Zpos p)))
  end.

(** [int(x)] for a float [x]: truncation toward zero; infinities and NaN
    raise. *)
Definition int_of_float (x : float) : result Z :=
  match Prim2SF x with
  | S754_zero _ => Ok 0
  | S754_finite s m e =>
      let a := match e with
               | Zneg p => Z.shiftr (Zpos m) (Zpos p)
               | _ => Zpos m * 2 ^ e
               end in
      Ok (if s then - a else a)
  | S754_infinity _ => Raise OverflowError
  | S754_nan => Raise ValueError
  end.

Definition exactly_representable (z : Z) : bool := Z.abs z <=? 2 ^ 53.

(** [int(value * 9 / 5 + 320)]. [value * 9] is an integer product, [/] the
    true division of two integers, which yields the quotient of the two
    doubles when both are exactly representable, and [+ 320] a float
    addition. A product beyond [2^53] cannot come out of a five-character
    field; the model answers [OverflowError] there. *)
Definition to_tenths_fahrenheit (value : Z) : result Z :=
  if exactly_representable (value * 9) then
    int_of_float
      (PrimFloat.add (PrimFloat.div (float_of_int (value * 9)) (float_of_int 5))
                     (float_of_int 320))
  else Raise OverflowError.

(** ** [parse_dly_file] *)

(** The inner [dict] of one date: element name (lower case) to value. *)
Abbreviation day_data := (gmap string Z).

(** [records]: a [dict] from date to [day_data], in insertion order. *)
Abbreviation records_t := (list (date * day_data)).

Fixpoint records_get (d : date) (records : records_t) : option day_data :=
  match records with
  | [] => None
  | (d', data) :: rest => if decide (d' = d) then Some data else records_get d rest
  end.

(** [d in records] *)
Definition records_mem (d : date) (records : records_t) : bool :=
  match records_get d records with
  | Some _ => true
  | None => false
  end.

(** [records[d][key] = value] for a [d] in [records] (on a missing [d]
    Python raises [KeyError]; the caller has put [d] in just before, and
    the list is left as it is). *)
Fixpoint records_store (d : date) (key : string) (value : Z) (records : records_t)
  : records_t :=
  match records with
  | [] => []
  | (d', data) :: rest =>
      if decide (d' = d) then (d', <[key := value]> data) :: rest
      else (d', data) :: records_store d key value rest
  end.

(** [s in (a, b, ...)] for strings. *)
Definition in_strs (s : string) (l : list string) : bool := existsb (String.eqb s) l.

Definition ELEMENTS : list string := ["TMAX"; "TMIN"; "PRCP"; "SNOW"].
Definition TEMPERATURES : list string := ["TMAX"; "TMIN"].

(** The value field of a day slot: [line[start:start + 5].strip()]. *)
Definition value_field (line : string) (day : nat) : string :=
  let start := (21 + (day - 1) * 8)%nat in
  strip (slice start (start + 5) line).

(** The body of the loop over the 31 day slots (lines 129-153). *)
Definition parse_day (year month : Z) (element line : string) (day : nat)
    (records : records_t) : result records_t :=
  let value_str := value_field line day in
  if String.eqb value_str "-9999" || String.eqb value_str "" then Ok records
  else
    match py_int value_str with
    | None => Ok records
    | Some value =>
        match py_date year month (Z.of_nat day) with
        | None => Ok records
        | Some d =>
            let records :=
              if records_mem d records then records else records ++ [(d, ∅)] in
            let* value :=
              if in_strs element TEMPERATURES then to_tenths_fahrenheit value
              else Ok value in
            Ok (records_store d (lower element) value records)
        end
    end.

(** The body of the loop over the lines (lines 114-153). [int] of the year
    and of the month field is not guarded: its [ValueError] leaves
    [parse_dly_file]. *)
Definition parse_line (MIN_YEAR : Z) (line : string) (records : records_t)
  : result records_t :=
  if (String.length line <? 269)%nat then Ok records
  else
    let* year := or_value_error (py_int (slice 11 15 line)) in
    if year <? MIN_YEAR then Ok records
    else
      let* month := or_value_error (py_int (slice 15 17 line)) in
      let element := slice 17 21 line in
      if negb (in_strs element ELEMENTS) then Ok records
      else for_each (parse_day year month element line) (seq 1 31) records.

(** The first loop of [parse_dly_file] (lines 111-153). *)
Definition build_records (MIN_YEAR : Z) (file_content : string) : result records_t :=
  for_each (parse_line MIN_YEAR) (split_on "010" file_content) [].

(** A row of [weather_daily], as the tuple built at lines 159-168. *)
Record row := Row {
  station_id : string;
  obs_date : date;
  obs_month : Z;
  obs_day : Z;
  tmax : option Z;
  tmin : option Z;
  prcp : option Z;
  snow : option Z
}.

Global Instance row_eq_dec : EqDecision row.
Proof. solve_decision. Defined.

(** [key in data] *)
Definition has_key (key : string) (data : day_data) : bool :=
  match data !! key with
  | Some _ => true
  | None => false
  end.

(** The second loop of [parse_dly_file] (lines 156-168). *)
Fixpoint to_rows (station : string) (records : records_t) : list row :=
  match records with
  | [] => []
  | (d, data) :: rest =>
      if has_key "tmax" data || has_key "tmin" data then
        Row station d (month d) (day d)
            (data !! "tmax") (data !! "tmin") (data !! "prcp") (data !! "snow")
        :: to_rows station rest
      else to_rows station rest
  end.

Definition parse_dly_file (MIN_YEAR : Z) (file_content station : string)
  : result (list row) :=
  let* records := build_records MIN_YEAR file_content in
  Ok (to_rows station records).

(** *** Building station files

    A data line is 269 characters: station (11), year (4), month (2),
    element (4), then 31 slots of a 5-character value and 3 flags. *)

Fixpoint spaces (n : nat) : string :=
  match n with
  | O => EmptyString
  | S n' => String " " (spaces n')
  end.

(** [s] cut or padded with spaces on the right to [n] characters. *)
Definition ljust (n : nat) (s : string) : string :=
  take_chars n (s +:+ spaces n).

Fixpoint day_slots (n : nat) (values : list string) : string :=
  match n with
  | O => EmptyString
  | S n' =>
      match values with
      | [] => "-9999   " +:+ day_slots n' []
      | v :: vs => ljust 5 v +:+ "   " +:+ day_slots n' vs
      end
  end.

(** The line of station [id] for a year, a month and an element, with the
    given value fields for days 1, 2, ...; the other days are missing. *)
Definition dly_line (id yyyy mm element : string) (values : list string) : string :=
  ljust 11 id +:+ ljust 4 yyyy +:+ ljust 2 mm +:+ ljust 4 element +:+ day_slots 31 values.

Definition unlines (ls : list string) : string :=
  foldr (fun l acc => l +:+ String "010" acc) EmptyString ls.

(** ** [insert_batch]: the upsert into [weather_daily]

    The table is the list of its rows. [ON CONFLICT (station_id, date)]
    names the unique key of the table. *)

Abbreviation table := (list row).

Definition key (r : row) : string * date := (station_id r, obs_date r).

(** Does a row of the table conflict with the proposed row? *)
Definition conflicts (excluded : row) (tbl : table) : bool :=
  existsb (fun x => bool_decide (key x = key excluded)) tbl.

(** [DO UPDATE SET tmax = EXCLUDED.tmax, tmin = EXCLUDED.tmin,
    prcp = EXCLUDED.prcp, snow = EXCLUDED.snow] on the conflicting row. *)
Definition do_update (excluded x : row) : row :=
  if bool_decide (key x = key excluded) then
    Row (station_id x) (obs_date x) (obs_month x) (obs_day x)
        (tmax excluded) (tmin excluded) (prcp excluded) (snow excluded)
  else x.

(** One proposed row of [INSERT ... ON CONFLICT ... DO UPDATE]. *)
Definition upsert (tbl : table) (excluded : row) : table :=
  if conflicts excluded tbl then map (do_update excluded) tbl
  else tbl ++ [excluded].

(** One [INSERT] statement. PostgreSQL refuses a statement that proposes
    two rows with the same conflict key. *)
Definition insert_statement (page : list row) (tbl : table) : result table :=
  if bool_decide (NoDup (map key page)) then Ok (foldl upsert tbl page)
  else Raise CardinalityViolation.

(** [execute_values] cuts its argument list into pages of [page_size] rows
    and sends one statement per page. [page] holds the current page in
    reverse. *)
Fixpoint paginate {A} (page_size : nat) (page : list A) (l : list A) : list (list A) :=
  match l with
  | [] => match page with [] => [] | _ => [rev page] end
  | x :: l' =>
      if (S (length page) =? page_size)%nat then rev (x :: page) :: paginate page_size [] l'
      else paginate page_size (x :: page) l'
  end.

Definition PAGE_SIZE : nat := 100.

(** [insert_batch(conn, records)]: the statements of [execute_values], then
    [commit]. The result is the committed table; an exception leaves
    nothing of the batch committed. *)
Definition insert_batch (tbl : table) (records : list row) : result table :=
  for_each insert_statement (paginate PAGE_SIZE [] records) tbl.

(** The row of the table with a given key, if any. *)
Definition find_row (k : string * date) (tbl : table) : option row :=
  find (fun x => bool_decide (key x = k)) tbl.

(** ** [import_weather_data]: the batching loop

    The state of the loop: the table, the buffer [batch], and the list of
    the batches handed to [insert_batch] so far. *)

Record loader := Loader {
  ld_table : table;
  ld_batch : list row;
  ld_flushes : list (list row)
}.

(** [insert_batch(conn, batch)] followed by [batch = []]. *)
Definition flush (st : loader) : result loader :=
  let* tbl := insert_batch (ld_table st) (ld_batch st) in
  Ok (Loader tbl [] (ld_flushes st ++ [ld_batch st])).

(** Lines 210-219, for the [records] of one station file. *)
Definition import_records (BATCH_SIZE : Z) (records : list row) (st : loader)
  : result loader :=
  match records with
  | [] => Ok st
  | _ =>
      let st := Loader (ld_table st) (ld_batch st ++ records) (ld_flushes st) in
      if BATCH_SIZE <=? Z.of_nat (length (ld_batch st)) then flush st else Ok st
  end.

(** Lines 221-224: the rows left in the buffer. *)
Definition import_rest (st : loader) : result loader :=
  match ld_batch st with
  | [] => Ok st
  | _ => flush st
  end.

(** The loop over the record lists of the successive station files. *)
Definition import_batches (BATCH_SIZE : Z) (parsed : list (list row)) (tbl : table)
  : result loader :=
  let* st := for_each (import_records BATCH_SIZE) parsed (Loader tbl [] []) in
  import_rest st.

(** [import_weather_data] on the archive members that pass the name and
    prefix filters, each given as its station identifier and its text. *)
Definition import_weather_data (MIN_YEAR BATCH_SIZE : Z)
    (members : list (string * string)) (tbl : table) : result loader :=
  let* st :=
    for_each (fun '(station, content) st =>
                let* records := parse_dly_file MIN_YEAR content station in
                import_records BATCH_SIZE records st)
             members (Loader tbl [] []) in
  import_rest st.

(** ** [download_stations]: decoding one line of the station list *)

Section Stations.

(** [float(s)] is left open: [None] stands for its [ValueError]. *)
Variable py_float : string -> option float.

(** The tuple appended at line 77. *)
Record station := Station {
  st_id : string;
  st_name : string;
  st_lat : float;
  st_lon : float;
  st_elev : option float
}.

(** The body of the loop (lines 66-77); [Ok None] is [continue]. *)
Definition decode_station (line : string) : result (option station) :=
  let id := strip (slice 0 11 line) in
  if negb (startswith "US" id) then Ok None
  else
    let* lat := or_value_error (py_float (strip (slice 12 20 line))) in
    let* lon := or_value_error (py_float (strip (slice 21 30 line))) in
    let* elev :=
      match strip (slice 31 37 line) with
      | EmptyString => Ok None
      | s => let* e := or_value_error (py_float s) in Ok (Some e)
      end in
    let name := strip (slice 41 71 line) in
    Ok (Some (Station id name lat lon elev)).

(** The loop of lines 62-77 over the decoded lines. *)
Fixpoint decode_stations (lines : list string) : result (list station) :=
  match lines with
  | [] => Ok []
  | line :: rest =>
      let* s := decode_station line in
      let* ss := decode_stations rest in
      Ok (match s with Some t => t :: ss | None => ss end)
  end.

(** The number fields of a line are readable. *)
Definition valid_station_line (line : string) : Prop :=
  is_Some (py_float (strip (slice 12 20 line))) /\
  is_Some (py_float (strip (slice 21 30 line))) /\
  (strip (slice 31 37 line) = EmptyString \/
   is_Some (py_float (strip (slice 31 37 line)))).

End Stations.

(** A reader of plain decimal literals, [sign digits . digits] with at
    least one digit and at most 16 characters after the sign, to run the
    decoder on sample lines. On such a literal it gives what [float(s)]
    gives: the numerator and the power of ten are doubles within [2^53] or
    correctly rounded, and their quotient is the correctly rounded value.
    It is not the whole of [float]: a literal with an exponent, [nan],
    [inf], underscores between digits or white space around it is read by
    [float] and not by this reader. *)
Fixpoint decimal_digits (acc : Z) (scale : Z) (seen_point : bool) (s : string)
  : option (Z * Z) :=
  match s with
  | EmptyString => Some (acc, scale)
  | String c s' =>
      if Ascii.eqb c "." then
        if seen_point then None else decimal_digits acc scale true s'
      else
        match digit c with
        | Some d => decimal_digits (10 * acc + d) (if seen_point then 10 * scale else scale)
                                   seen_point s'
        | None => None
        end
  end.

Fixpoint has_digit (s : string) : bool :=
  match s with
  | EmptyString => false
  | String c s' =>
      match digit c with
      | Some _ => true
      | None => has_digit s'
      end
  end.

Definition plain_decimal (s : string) : option float :=
  let '(neg, body) :=
    match s with
    | String "-" r => (true, r)
    | String "+" r => (false, r)
    | _ => (false, s)
    end in
  if negb (has_digit body) || (16 <? String.length body)%nat then None
  else
    match decimal_digits 0 1 false body with
    | Some (m, scale) =>
        let x := PrimFloat.div (float_of_int m) (float_of_int scale) in
        Some (if neg then PrimFloat.opp x else x)
    | None => None
    end.

(** ** Sample data *)

Definition sample_station : string := "USC00011084".

(** A TMAX line of March 2020: 15.0 C on day 1, day 2 missing. *)
Definition sample_tmax_line : string :=
  dly_line sample_station "2020" "03" "TMAX" ["  150"; "-9999"].

(** A TMAX line of February 2020 with a value in each of the 31 slots. *)
Definition sample_february_line : string :=
  dly_line sample_station "2020" "02" "TMAX" (repeat "  100" 31).

(** A line of an element the parser does not know, with a month field that
    is not a number. *)
Definition sample_bad_month_line : string :=
  dly_line sample_station "2020" "ab" "XXXX" [].

(** A TMAX line of January 2020 with -0.1 C on day 1. *)
Definition sample_cold_line : string :=
  dly_line sample_station "2020" "01" "TMAX" ["   -1"].

(** A station file: the TMAX line above, and a PRCP line of the same month
    with 1.0 mm on day 1 and 1.2 mm on day 2. *)
Definition sample_file : string :=
  unlines [sample_tmax_line;
           dly_line sample_station "2020" "03" "PRCP" ["00010"; "   12"]].

(** ** The temperature conversion in exact arithmetic *)

(** [trunc(v * 9 / 5 + 320)]: the sum is formed first, then cut toward
    zero. *)
Definition truncated_sum (v : Z) : Z := Z.quot (v * 9 + 1600) 5.

(** [trunc(v * 9 / 5) + 320]: the quotient is cut first. *)
Definition truncated_quotient_plus_320 (v : Z) : Z := Z.quot (v * 9) 5 + 320.

(** Does the float computation give [truncated_sum] at [v]? *)
Definition conversion_agrees (v : Z) : bool :=
  match to_tenths_fahrenheit v with
  | Ok r => r =? truncated_sum v
  | Raise _ => false
  end.

(** [conversion_agrees] on the [2^k] integers from [lo] on. *)
Fixpoint conversion_agrees_on (k : nat) (lo : Z) : bool :=
  match k with
  | O => conversion_agrees lo
  | S k' => conversion_agrees_on k' lo && conversion_agrees_on k' (lo + 2 ^ Z.of_nat k')
  end.

(** ** What one day slot records *)

(** The value kept for a reading: temperatures converted, the rest as
    read. *)
Definition stored_value (element : string) (v : Z) : Z :=
  if in_strs element TEMPERATURES then truncated_sum v else v.

(** Lines 146-153 as one step: make room for [d] if it is new, then store
    the value under [key]. *)
Definition put_reading (d : date) (key : string) (x : Z) (records : records_t)
  : records_t :=
  records_store d key x (if records_mem d records then records else records ++ [(d, ∅)]).

(** The dates of [records], in insertion order. *)
Definition dates (records : records_t) : list date := map fst records.

(** [data] holds a temperature. *)
Definition has_temperature (data : day_data) : Prop :=
  is_Some (data !! "tmax") \/ is_Some (data !! "tmin").

(** ** The upsert, seen from the table *)

(** The updates of a list of proposed rows applied to one row, in order. *)
Definition apply_updates (rs : list row) (x : row) : row :=
  foldl (fun x r => do_update r x) x rs.

(** The last row of a batch that proposes the key [k]. *)
Definition last_proposed (k : string * date) (records : list row) : option row :=
  find (fun r => bool_decide (key r = k)) (rev records).

(** The row under the key [k] once the rows of a batch have been proposed
    in order: as before when the batch does not propose [k]; else the
    [tmax], [tmin], [prcp] and [snow] of the last row proposing [k], on the
    station, date, month and day of the row the table had for [k], or of
    the first row proposing [k] when the table had none. *)
Definition row_after (k : string * date) (tbl : table) (records : list row)
  : option row :=
  match last_proposed k records with
  | None => find_row k tbl
  | Some l =>
      let base :=
        match find_row k tbl with
        | Some y => y
        | None => default l (find_row k records)
        end in
      Some (Row (station_id base) (obs_date base) (obs_month base) (obs_day base)
                (tmax l) (tmin l) (prcp l) (snow l))
  end.

(** No statement of the batch proposes a key twice. *)
Definition pages_ok (records : list row) : bool :=
  forallb (fun page => bool_decide (NoDup (map key page)))
          (paginate PAGE_SIZE [] records).

(** Three rows of one station, and a later reading for the first date with
    other month and day columns. *)
Definition sample_row_1 : row :=
  Row sample_station (Date 2020 3 1) 3 1 (Some 590) None (Some 10) None.
Definition sample_row_2 : row :=
  Row sample_station (Date 2020 3 2) 3 2 (Some 600) (Some 410) None None.
Definition sample_row_3 : row :=
  Row sample_station (Date 2020 3 3) 3 3 None (Some 400) None (Some 25).
Definition sample_row_1_again : row :=
  Row sample_station (Date 2020 3 1) 0 0 (Some 612) (Some 433) None None.

(** ** Station files of one row each *)

(** The record lists of a run in which every station file gives one row. *)
Definition one_row_files (rs : list row) : list (list row) := map (fun r => [r]) rs.

(** Two lines of the station list: a US station, and one of Antigua. *)
Definition sample_us_station_line : string :=
  "US1MNCV0008  44.7623  -93.2754  294.1 MN LAKEVILLE 2.0 SSE                           ".
Definition sample_foreign_station_line : string :=
  "ACW00011604  17.1167  -61.7833   10.1    ST JOHNS COOLIDGE FLD                       ".

(** ** Lines that stop the parser *)

(** A line long enough to be read whose year field is not an integer, or
    whose year passes the age filter and whose month field is not an
    integer. *)
Definition line_raises (MIN_YEAR : Z) (line : string) : bool :=
  (269 <=? String.length line)%nat &&
  match py_int (slice 11 15 line) with
  | None => true
  | Some y =>
      (MIN_YEAR <=? y) &&
      match py_int (slice 15 17 line) with
      | None => true
      | Some _ => false
      end
  end.

(** A line with a year field that is not a number. *)
Definition sample_bad_year_line : string :=
  dly_line sample_station "20x0" "03" "TMAX" ["  150"].

(** ** What an entry of the grouped records looks like *)

Definition valid_calendar_date (y m d : Z) : Prop :=
  1 <= y <= 9999 /\ 1 <= m <= 12 /\ 1 <= d <= days_in_month y m.

Definition temperature_in_range (o : option Z) : Prop :=
  forall x, o = Some x -> -17678 <= x <= 180318.

Definition raw_in_range (o : option Z) : Prop :=
  forall x, o = Some x -> -9999 <= x <= 99999.

(** A date the parser can have produced under [MIN_YEAR], with values a
    five-character field can have produced. *)
Definition entry_ok (MIN_YEAR : Z) (d : date) (data : day_data) : Prop :=
  valid_calendar_date (year d) (month d) (day d) /\
  MIN_YEAR <= year d /\
  temperature_in_range (data !! "tmax") /\ temperature_in_range (data !! "tmin") /\
  raw_in_range (data !! "prcp") /\ raw_in_range (data !! "snow").

(** ** The [stations] table

    Its columns are those the statements of [download_stations] and
    [update_station_date_ranges] name. *)

Record station_row := StationRow {
  sr_id : string;
  sr_name : string;
  sr_latitude : float;
  sr_longitude : float;
  sr_elevation : option float;
  sr_min_date : option date;
  sr_max_date : option date
}.

Section StationsTable.

(** What [min_date] and [max_date] of a newly inserted station are is
    said by the schema, which the [INSERT] does not override. *)
Variable default_min_date default_max_date : option date.

Definition station_conflicts (excluded : station) (tbl : list station_row) : bool :=
  existsb (fun x => bool_decide (sr_id x = st_id excluded)) tbl.

(** [DO UPDATE SET name = EXCLUDED.name, latitude = EXCLUDED.latitude,
    longitude = EXCLUDED.longitude, elevation = EXCLUDED.elevation]. *)
Definition station_update (excluded : station) (x : station_row) : station_row :=
  if bool_decide (sr_id x = st_id excluded) then
    StationRow (sr_id x) (st_name excluded) (st_lat excluded) (st_lon excluded)
               (st_elev excluded) (sr_min_date x) (sr_max_date x)
  else x.

Definition upsert_station (tbl : list station_row) (excluded : station)
  : list station_row :=
  if station_conflicts excluded tbl then map (station_update excluded) tbl
  else tbl ++ [StationRow (st_id excluded) (st_name excluded) (st_lat excluded)
                          (st_lon excluded) (st_elev excluded)
                          default_min_date default_max_date].

Definition insert_stations_statement (page : list station) (tbl : list station_row)
  : result (list station_row) :=
  if bool_decide (NoDup (map st_id page)) then Ok (foldl upsert_station tbl page)
  else Raise CardinalityViolation.

(** Lines 81-95: the statements of [execute_values], then [commit]. *)
Definition import_stations (tbl : list station_row) (stations : list station)
  : result (list station_row) :=
  for_each insert_stations_statement (paginate PAGE_SIZE [] stations) tbl.

(** [download_stations] on the decoded lines of the station list: the new
    table and the set of identifiers it returns. *)
Definition download_stations (py_float : string -> option float)
    (lines : list string) (tbl : list station_row)
  : result (list station_row * gset string) :=
  let* stations := decode_stations py_float lines in
  let* tbl' := import_stations tbl stations in
  Ok (tbl', list_to_set (map st_id stations)).

End StationsTable.

(** ** [update_station_date_ranges] *)

(** Dates in calendar order. *)
Definition date_leb (a b : date) : bool :=
  (year a <? year b) ||
  (year a =? year b) &&
  ((month a <? month b) || (month a =? month b) && (day a <=? day b)).

Definition date_min (a b : date) : date := if date_leb a b then a else b.
Definition date_max (a b : date) : date := if date_leb a b then b else a.

(** The dates of the rows of one station in [weather_daily]. *)
Definition station_dates (id : string) (weather : table) : list date :=
  map obs_date (filter (fun r => station_id r = id) weather).

(** [MIN(date)] and [MAX(date)] of a group; a group is never empty. *)
Definition date_range (ds : list date) : option (date * date) :=
  match ds with
  | [] => None
  | d :: rest => Some (foldl date_min d rest, foldl date_max d rest)
  end.

(** The [UPDATE ... FROM (SELECT ... GROUP BY station_id) sub WHERE
    s.id = sub.station_id]: a station with rows in [weather_daily] gets
    their first and last date, a station without is not touched. *)
Definition update_station_date_ranges (stations : list station_row) (weather : table)
  : list station_row :=
  map (fun s =>
         match date_range (station_dates (sr_id s) weather) with
         | Some (lo, hi) =>
             StationRow (sr_id s) (sr_name s) (sr_latitude s) (sr_longitude s)
                        (sr_elevation s) (Some lo) (Some hi)
         | None => s
         end) stations.

(** A station row with no date range yet. *)
Definition sample_station_row : station_row :=
  StationRow sample_station "ALBERTA" (float_of_int 32) (float_of_int (-87)) None None None.

(** ** Lines long enough to be read *)

Definition long_lines (file_content : string) : list string :=
  filter (fun line => (269 <= String.length line)%nat) (split_on "010" file_content).

(** * Properties *)

(** ** The day slots *)

Lemma py_date_valid y m d :
  valid_calendar_date y m d -> py_date y m d = Some (Date y m d).
Proof.
  intros (Hy & Hm & Hd). unfold py_date.
  replace (1 <=? y) with true by (symmetry; apply Z.leb_le; lia).
  replace (y <=? 9999) with true by (symmetry; apply Z.leb_le; lia).
  replace (1 <=? m) with true by (symmetry; apply Z.leb_le; lia).
  replace (m <=? 12) with true by (symmetry; apply Z.leb_le; lia).
  replace (1 <=? d) with true by (symmetry; apply Z.leb_le; lia).
  replace (d <=? days_in_month y m) with true by (symmetry; apply Z.leb_le; lia).
  reflexivity.
Qed.

Lemma py_date_invalid y m d :
  ~ valid_calendar_date y m d -> py_date y m d = None.
Proof.
  intros Hinv. unfold py_date.
  destruct ((1 <=? y) && (y <=? 9999) && (1 <=? m) && (m <=? 12)
            && (1 <=? d) && (d <=? days_in_month y m)) eqn:E; [|reflexivity].
  exfalso. apply Hinv.
  repeat (apply andb_prop in E as [E ?]).
  unfold valid_calendar_date. rewrite !Z.leb_le in *. lia.
Qed.

Lemma py_date_some y m d dt :
  py_date y m d = Some dt -> dt = Date y m d /\ valid_calendar_date y m d.
Proof.
  intros H. destruct (decide (valid_calendar_date y m d)) as [Hv|Hv].
  - rewrite (py_date_valid _ _ _ Hv) in H. by inversion H.
  - rewrite (py_date_invalid _ _ _ Hv) in H. discriminate.
Qed.

Lemma missing_value_skip year month element line day (records : records_t) :
  value_field line day = "-9999" \/ value_field line day = "" ->
  parse_day year month element line day records = Ok records.
Proof.
  intros [H|H]; unfold parse_day; rewrite H; reflexivity.
Qed.

(** C5. A day slot whose trimmed value field is the sentinel [-9999] or is
    empty records nothing: [parse_day] returns the grouped records it was
    given, for every line, element and day. *)
Theorem missing_value_records_nothing
    (year month : Z) (element line : string) (day : nat) (records : records_t) :
  value_field line day = "-9999" \/ value_field line day = "" ->
  parse_day year month element line day records = Ok records.
Proof. apply missing_value_skip. Qed.

Lemma missing_value_records_nothing_witness :
  value_field sample_tmax_line 2 = "-9999" /\
  parse_day 2020 3 "TMAX" sample_tmax_line 2 [] = Ok [].
Proof.
  split; [reflexivity|].
  apply missing_value_records_nothing. left. reflexivity.
Defined.

(** C6. A day slot whose (year, month, day) is not a calendar date records
    nothing and raises nothing: [parse_day] returns [Ok] with the records it
    was given. Day 30 of a February and every day past the end of a month
    are such slots. *)
Theorem invalid_date_skipped
    (year month : Z) (element line : string) (day : nat) (records : records_t) :
  ~ valid_calendar_date year month (Z.of_nat day) ->
  parse_day year month element line day records = Ok records.
Proof.
  intros Hinv. unfold parse_day.
  destruct (_ || _); [reflexivity|].
  destruct (py_int _); [|reflexivity].
  by rewrite (py_date_invalid _ _ _ Hinv).
Qed.

Lemma invalid_date_skipped_witness :
  ~ valid_calendar_date 2020 2 (Z.of_nat 30) /\
  parse_day 2020 2 "TMAX" sample_february_line 30 [] = Ok [].
Proof.
  assert (H : ~ valid_calendar_date 2020 2 (Z.of_nat 30)).
  { unfold valid_calendar_date. vm_compute. intros (_ & _ & _ & H). by apply H. }
  split; [exact H|].
  apply invalid_date_skipped. exact H.
Defined.

(** ** The line filters *)

Lemma for_each_unchanged {A S} (body : A -> S -> result S) (xs : list A) (s : S) :
  (forall x, In x xs -> body x s = Ok s) -> for_each body xs s = Ok s.
Proof.
  induction xs as [|x xs IH]; intros H; [reflexivity|].
  simpl. rewrite (H x) by (by left). simpl. apply IH.
  intros y Hy. apply H. by right.
Qed.

(** C7, as the code has it. A line changes the records only if it has at
    least 269 characters, its year field reads as an integer not below
    [MIN_YEAR], and its element is one of the four; a line that is too
    short, or whose year reads below [MIN_YEAR], is skipped; a line of
    another element is skipped once its month field has been read as an
    integer. *)
Theorem parse_line_filters (MIN_YEAR : Z) (line : string) (records : records_t) :
  (forall records',
      parse_line MIN_YEAR line records = Ok records' -> records' <> records ->
      (269 <= String.length line)%nat /\
      (exists y, py_int (slice 11 15 line) = Some y /\ MIN_YEAR <= y) /\
      in_strs (slice 17 21 line) ELEMENTS = true) /\
  ((String.length line < 269)%nat -> parse_line MIN_YEAR line records = Ok records) /\
  (forall y, py_int (slice 11 15 line) = Some y -> y < MIN_YEAR ->
             parse_line MIN_YEAR line records = Ok records) /\
  (forall y m, py_int (slice 11 15 line) = Some y ->
               py_int (slice 15 17 line) = Some m ->
               in_strs (slice 17 21 line) ELEMENTS = false ->
               parse_line MIN_YEAR line records = Ok records).
Proof.
  unfold parse_line. split; [|split; [|split]].
  - intros r' Hr' Hne.
    destruct (String.length line <? 269)%nat eqn:E; [congruence|].
    apply Nat.ltb_ge in E. split; [exact E|].
    destruct (py_int (slice 11 15 line)) as [y|]; [|discriminate].
    cbn [bind or_value_error] in Hr'.
    destruct (y <? MIN_YEAR) eqn:Ey; [congruence|].
    apply Z.ltb_ge in Ey. split; [by exists y|].
    destruct (py_int (slice 15 17 line)) as [m|]; [|discriminate].
    cbn [bind or_value_error] in Hr'.
    destruct (in_strs (slice 17 21 line) ELEMENTS); [reflexivity|].
    cbn [negb] in Hr'. congruence.
  - intros Hlen. apply Nat.ltb_lt in Hlen. by rewrite Hlen.
  - intros y Hy Hlt. destruct (String.length line <? 269)%nat; [reflexivity|].
    rewrite Hy. cbn [bind or_value_error]. apply Z.ltb_lt in Hlt. by rewrite Hlt.
  - intros y m Hy Hm He. destruct (String.length line <? 269)%nat; [reflexivity|].
    rewrite Hy. cbn [bind or_value_error]. destruct (y <? MIN_YEAR); [reflexivity|].
    rewrite Hm. cbn [bind or_value_error]. by rewrite He.
Qed.

(** C7, the counterexample: a line of 269 characters of the unknown element
    [XXXX] fails the element filter, yet it is not skipped: its month field
    [ab] is read before the element is looked at, and [ValueError] leaves
    [parse_dly_file]. *)
Lemma unknown_element_line_not_skipped :
  String.length sample_bad_month_line = 269%nat /\
  in_strs (slice 17 21 sample_bad_month_line) ELEMENTS = false /\
  parse_line 2001 sample_bad_month_line [] = Raise ValueError /\
  parse_dly_file 2001 sample_bad_month_line sample_station = Raise ValueError.
Proof. vm_compute. repeat split. Qed.

(** ** The temperature conversion *)

Lemma conversion_agrees_on_sound k : forall lo v,
  conversion_agrees_on k lo = true -> lo <= v < lo + 2 ^ Z.of_nat k ->
  conversion_agrees v = true.
Proof.
  induction k as [|k IH]; intros lo v H Hr.
  - simpl in Hr. assert (v = lo) by lia. subst. exact H.
  - cbn [conversion_agrees_on] in H. apply andb_prop in H as [H1 H2].
    rewrite Nat2Z.inj_succ, Z.pow_succ_r in Hr by lia.
    destruct (Z_lt_dec v (lo + 2 ^ Z.of_nat k)).
    + apply (IH lo); [exact H1 | lia].
    + apply (IH (lo + 2 ^ Z.of_nat k)); [exact H2 | lia].
Qed.

(** Every value from -16384 to 131071 has been run through the float
    computation. *)
Lemma conversion_agrees_checked :
  conversion_agrees_on 14 (-16384) && conversion_agrees_on 17 0 = true.
Proof. vm_cast_no_check (eq_refl true). Qed.

Lemma to_tenths_fahrenheit_exact v :
  -9999 <= v <= 99999 -> to_tenths_fahrenheit v = Ok (truncated_sum v).
Proof.
  intros Hv.
  assert (H : conversion_agrees v = true).
  { pose proof conversion_agrees_checked as C. apply andb_prop in C as [C1 C2].
    destruct (Z_lt_dec v 0).
    - apply (conversion_agrees_on_sound 14 (-16384)); [exact C1|].
      change (2 ^ Z.of_nat 14) with 16384. lia.
    - apply (conversion_agrees_on_sound 17 0); [exact C2|].
      change (2 ^ Z.of_nat 17) with 131072. lia. }
  unfold conversion_agrees in H.
  destruct (to_tenths_fahrenheit v) as [r|]; [|discriminate].
  apply Z.eqb_eq in H. by subst.
Qed.

(** Where cutting before or after adding 320 makes no difference. *)
Lemma truncated_sum_quotient v :
  0 <= v \/ v mod 5 = 0 -> truncated_sum v = truncated_quotient_plus_320 v.
Proof.
  unfold truncated_sum, truncated_quotient_plus_320. intros [H|H].
  - rewrite !Z.quot_div_nonneg by lia.
    replace (v * 9 + 1600) with (v * 9 + 320 * 5) by lia.
    by rewrite Z.div_add by lia.
  - apply Z.mod_divide in H; [|lia]. destruct H as [q ->].
    replace (q * 5 * 9 + 1600) with ((q * 9 + 320) * 5) by lia.
    replace (q * 5 * 9) with ((q * 9) * 5) by lia.
    rewrite !Z.quot_mul by lia. reflexivity.
Qed.

(** ** What a value field can hold *)

Lemma lstrip_by_length p s : (String.length (lstrip_by p s) <= String.length s)%nat.
Proof.
  induction s as [|c s IH]; simpl; [lia|]. destruct (p c); simpl; lia.
Qed.

Lemma rstrip_by_length p s : (String.length (rstrip_by p s) <= String.length s)%nat.
Proof.
  induction s as [|c s IH]; simpl; [lia|].
  destruct (rstrip_by p s) as [|c' r]; [destruct (p c)|]; simpl in *; lia.
Qed.

Lemma strip_length s : (String.length (strip s) <= String.length s)%nat.
Proof.
  unfold strip. etrans; [apply rstrip_by_length|apply lstrip_by_length].
Qed.

Lemma take_chars_length n s : (String.length (take_chars n s) <= n)%nat.
Proof.
  revert s. induction n as [|n IH]; intros [|c s]; simpl; try lia.
  specialize (IH s). lia.
Qed.

Lemma slice_length a b s : (String.length (slice a b s) <= b - a)%nat.
Proof. apply take_chars_length. Qed.

Lemma value_field_length line day : (String.length (value_field line day) <= 5)%nat.
Proof.
  unfold value_field. etrans; [apply strip_length|].
  etrans; [apply slice_length|]. lia.
Qed.

Lemma digit_range c d : digit c = Some d -> 0 <= d <= 9.
Proof.
  unfold digit. destruct (_ && _)%N eqn:E; [|discriminate].
  intros [= <-]. apply andb_prop in E as [E1 E2].
  apply N.leb_le in E1, E2. lia.
Qed.

Lemma int_digits_range s : forall acc b v,
  0 <= acc -> int_digits acc b s = Some v ->
  0 <= v < (acc + 1) * 10 ^ Z.of_nat (String.length s).
Proof.
  induction s as [|c s IH]; intros acc b v Hacc H.
  - simpl in *. destruct b; [discriminate|]. injection H as <-. lia.
  - cbn [int_digits] in H. cbn [String.length].
    rewrite Nat2Z.inj_succ, Z.pow_succ_r by lia.
    assert (Hp : 0 < 10 ^ Z.of_nat (String.length s)) by (apply Z.pow_pos_nonneg; lia).
    destruct (Ascii.eqb c "_").
    + destruct b; [discriminate|]. apply IH in H; [|lia]. nia.
    + destruct (digit c) as [d|] eqn:Hd; [|discriminate].
      apply digit_range in Hd. apply IH in H; [|lia]. nia.
Qed.

Lemma int_unsigned_range s v :
  int_unsigned s = Some v -> 0 <= v < 10 ^ Z.of_nat (String.length s).
Proof.
  destruct s as [|c s]; [discriminate|]. cbn [int_unsigned String.length].
  destruct (digit c) as [d|] eqn:Hd; [|discriminate].
  intros H. apply digit_range in Hd. apply int_digits_range in H; [|lia].
  rewrite Nat2Z.inj_succ, Z.pow_succ_r by lia.
  assert (Hp : 0 < 10 ^ Z.of_nat (String.length s)) by (apply Z.pow_pos_nonneg; lia).
  nia.
Qed.

Lemma int_signed_range s v :
  int_signed s = Some v ->
  - 10 ^ Z.of_nat (String.length s - 1) < v < 10 ^ Z.of_nat (String.length s).
Proof.
  assert (Hmono : forall n : nat, 0 < 10 ^ Z.of_nat n) by (intros; apply Z.pow_pos_nonneg; lia).
  assert (Hstep : forall n : nat, 10 ^ Z.of_nat (S n) = 10 * 10 ^ Z.of_nat n)
    by (intros; rewrite Nat2Z.inj_succ, Z.pow_succ_r by lia; reflexivity).
  assert (Hplain : forall t w, int_unsigned t = Some w ->
            - 10 ^ Z.of_nat (String.length t - 1) < w < 10 ^ Z.of_nat (String.length t)).
  { intros t w Hw. apply int_unsigned_range in Hw.
    pose proof (Hmono (String.length t - 1)%nat). lia. }
  destruct s as [|c r]; [discriminate|].
  destruct (Ascii.eqb_spec c "+") as [->|Hplus].
  { cbn [int_signed String.length]. intros H. apply int_unsigned_range in H.
    rewrite Hstep. replace (S (String.length r) - 1)%nat with (String.length r) by lia.
    pose proof (Hmono (String.length r)). lia. }
  destruct (Ascii.eqb_spec c "-") as [->|Hminus].
  { cbn [int_signed String.length]. destruct (int_unsigned r) as [w|] eqn:Hw; [|discriminate].
    intros [= <-]. apply int_unsigned_range in Hw.
    rewrite Hstep. replace (S (String.length r) - 1)%nat with (String.length r) by lia.
    pose proof (Hmono (String.length r)). lia. }
  intros H. apply Hplain.
  destruct c as [[] [] [] [] [] [] [] []]; try exact H; congruence.
Qed.

Lemma py_int_range s v (n : nat) :
  (String.length s <= S n)%nat -> py_int s = Some v ->
  - 10 ^ Z.of_nat n < v < 10 ^ Z.of_nat (S n).
Proof.
  intros Hlen H. unfold py_int in H. apply int_signed_range in H.
  set (t := rstrip_by is_int_space (lstrip_by is_int_space s)) in *.
  assert (Ht : (String.length t <= S n)%nat).
  { unfold t. etrans; [apply rstrip_by_length|]. etrans; [apply lstrip_by_length|]. done. }
  assert (10 ^ Z.of_nat (String.length t) <= 10 ^ Z.of_nat (S n))
    by (apply Z.pow_le_mono_r; lia).
  assert (10 ^ Z.of_nat (String.length t - 1) <= 10 ^ Z.of_nat n)
    by (apply Z.pow_le_mono_r; lia).
  lia.
Qed.

(** A value field reads as an integer from -9999 to 99999. *)
Lemma value_field_range line day v :
  py_int (value_field line day) = Some v -> -9999 <= v <= 99999.
Proof.
  intros H. apply (py_int_range _ _ 4) in H; [|apply value_field_length].
  change (10 ^ Z.of_nat 4) with 10000 in H. change (10 ^ Z.of_nat 5) with 100000 in H.
  lia.
Qed.

(** ** The grouped records *)

Lemma records_get_dates d (records : records_t) :
  records_get d records = None <-> d ∉ dates records.
Proof.
  induction records as [|[d' data] rest IH]; simpl.
  - split; [intros _; apply not_elem_of_nil|done].
  - destruct (decide (d' = d)) as [->|Hne].
    + split; [discriminate|]. intros H. exfalso. apply H. left.
    + rewrite IH, not_elem_of_cons. split; [by intros ?|by intros [_ ?]].
Qed.

Lemma records_get_elem d data (records : records_t) :
  records_get d records = Some data -> (d, data) ∈ records.
Proof.
  induction records as [|[d' data'] rest IH]; simpl; [discriminate|].
  destruct (decide (d' = d)) as [->|Hne].
  - intros [= ->]. left.
  - intros H. right. by apply IH.
Qed.

Lemma records_elem_get d data (records : records_t) :
  NoDup (dates records) -> (d, data) ∈ records -> records_get d records = Some data.
Proof.
  induction records as [|[d' data'] rest IH]; simpl; intros Hnd Hin.
  - by apply elem_of_nil in Hin.
  - apply NoDup_cons in Hnd as [Hnotin Hnd].
    apply elem_of_cons in Hin as [[= -> ->]|Hin].
    + by rewrite decide_True.
    + destruct (decide (d' = d)) as [->|Hne]; [|by apply IH].
      exfalso. apply Hnotin. unfold dates.
      apply list_elem_of_fmap. by exists (d, data).
Qed.

Lemma records_get_app d (r1 r2 : records_t) :
  records_get d (r1 ++ r2) =
  match records_get d r1 with Some x => Some x | None => records_get d r2 end.
Proof.
  induction r1 as [|[d' data] rest IH]; simpl; [reflexivity|].
  by destruct (decide (d' = d)).
Qed.

Lemma records_store_dates d key x (records : records_t) :
  dates (records_store d key x records) = dates records.
Proof.
  induction records as [|[d' data] rest IH]; simpl; [reflexivity|].
  destruct (decide (d' = d)); simpl; [reflexivity|]. f_equal. exact IH.
Qed.

Lemma records_get_store d key x (records : records_t) d' :
  records_get d' (records_store d key x records) =
  if decide (d = d') then <[key := x]> <$> records_get d records
  else records_get d' records.
Proof.
  induction records as [|[d0 data] rest IH]; simpl.
  - by destruct (decide (d = d')).
  - destruct (decide (d0 = d)) as [->|Hne]; simpl.
    + destruct (decide (d = d')) as [->|Hne']; reflexivity.
    + destruct (decide (d0 = d')) as [->|Hne'].
      * destruct (decide (d = d')) as [->|_]; [done|reflexivity].
      * exact IH.
Qed.

Lemma put_reading_dates d key x (records : records_t) :
  dates (put_reading d key x records) =
  if records_mem d records then dates records else dates records ++ [d].
Proof.
  unfold put_reading. rewrite records_store_dates.
  destruct (records_mem d records); [reflexivity|]. unfold dates. by rewrite map_app.
Qed.

Lemma put_reading_NoDup d key x (records : records_t) :
  NoDup (dates records) -> NoDup (dates (put_reading d key x records)).
Proof.
  intros Hnd. rewrite put_reading_dates. unfold records_mem.
  destruct (records_get d records) eqn:E; [exact Hnd|].
  apply records_get_dates in E.
  apply NoDup_app. split; [exact Hnd|]. split.
  - intros y Hy Hy'. apply list_elem_of_singleton in Hy'. by subst.
  - apply NoDup_singleton.
Qed.

(** After a reading is put in, its date holds the value under its key,
    whatever it held before, and the other keys of that date are kept. *)
Lemma records_get_put_reading d key x (records : records_t) :
  records_get d (put_reading d key x records) =
  Some (<[key := x]> (default ∅ (records_get d records))).
Proof.
  unfold put_reading. rewrite records_get_store, decide_True by reflexivity.
  unfold records_mem. destruct (records_get d records) as [data|] eqn:E.
  - by rewrite E.
  - rewrite records_get_app, E. simpl. by rewrite decide_True.
Qed.

Lemma records_get_put_reading_ne d d' key x (records : records_t) :
  d <> d' -> records_get d' (put_reading d key x records) = records_get d' records.
Proof.
  intros Hne. unfold put_reading. rewrite records_get_store, decide_False by exact Hne.
  destruct (records_mem d records); [reflexivity|].
  rewrite records_get_app. destruct (records_get d' records); [reflexivity|].
  simpl. by rewrite decide_False.
Qed.

(** *** What [parse_day] does, case by case *)

Lemma parse_day_reading year month element line day records v d :
  value_field line day <> "-9999" ->
  py_int (value_field line day) = Some v ->
  py_date year month (Z.of_nat day) = Some d ->
  parse_day year month element line day records =
  Ok (put_reading d (lower element) (stored_value element v) records).
Proof.
  intros Hs Hv Hd. unfold parse_day.
  destruct (String.eqb_spec (value_field line day) "-9999") as [|_]; [done|].
  destruct (String.eqb_spec (value_field line day) "") as [E|_].
  { rewrite E in Hv. discriminate. }
  cbn [orb]. rewrite Hv, Hd. unfold stored_value, put_reading.
  destruct (in_strs element TEMPERATURES); [|reflexivity].
  rewrite to_tenths_fahrenheit_exact by (eapply value_field_range; exact Hv).
  reflexivity.
Qed.

Lemma parse_day_cases year month element line day records :
  parse_day year month element line day records = Ok records \/
  exists v d,
    value_field line day <> "-9999" /\
    py_int (value_field line day) = Some v /\
    py_date year month (Z.of_nat day) = Some d /\
    parse_day year month element line day records =
    Ok (put_reading d (lower element) (stored_value element v) records).
Proof.
  destruct (decide (value_field line day = "-9999")) as [E|E].
  { left. apply missing_value_skip. by left. }
  destruct (py_int (value_field line day)) as [v|] eqn:Hv.
  - destruct (py_date year month (Z.of_nat day)) as [d|] eqn:Hd.
    + right. exists v, d. repeat split; try done. by apply parse_day_reading.
    + left. unfold parse_day. rewrite Hv, Hd. by destruct (_ || _).
  - left. unfold parse_day. rewrite Hv. by destruct (_ || _).
Qed.

(** *** Loops *)

Lemma for_each_invariant {A S} (P : S -> Prop) (body : A -> S -> result S) xs :
  (forall x s s', P s -> body x s = Ok s' -> P s') ->
  forall s s', P s -> for_each body xs s = Ok s' -> P s'.
Proof.
  intros Hstep. induction xs as [|x xs IH]; intros s s' Hs H; simpl in H.
  - by injection H as <-.
  - destruct (body x s) as [s1|] eqn:E; [|discriminate].
    cbn [bind] in H. eapply IH; [|exact H]. eapply Hstep; [exact Hs|exact E].
Qed.

Lemma for_each_total {A S} (body : A -> S -> result S) xs :
  (forall x s, exists s', body x s = Ok s') ->
  forall s, exists s', for_each body xs s = Ok s'.
Proof.
  intros Hbody. induction xs as [|x xs IH]; intros s; simpl; [by eexists|].
  destruct (Hbody x s) as [s1 ->]. cbn [bind]. apply IH.
Qed.

Lemma parse_day_NoDup year month element line day records records' :
  NoDup (dates records) ->
  parse_day year month element line day records = Ok records' ->
  NoDup (dates records').
Proof.
  intros Hnd H.
  destruct (parse_day_cases year month element line day records)
    as [E|(v & d & _ & _ & _ & E)]; rewrite E in H; injection H as <-.
  - exact Hnd.
  - by apply put_reading_NoDup.
Qed.

Lemma parse_line_days MIN_YEAR line records records' :
  parse_line MIN_YEAR line records = Ok records' ->
  records' = records \/
  exists y m,
    py_int (slice 11 15 line) = Some y /\ py_int (slice 15 17 line) = Some m /\
    for_each (parse_day y m (slice 17 21 line) line) (seq 1 31) records = Ok records'.
Proof.
  unfold parse_line. intros H.
  destruct (String.length line <? 269)%nat; [left; congruence|].
  destruct (py_int (slice 11 15 line)) as [y|]; [|discriminate].
  cbn [bind or_value_error] in H.
  destruct (y <? MIN_YEAR); [left; congruence|].
  destruct (py_int (slice 15 17 line)) as [m|]; [|discriminate].
  cbn [bind or_value_error] in H.
  destruct (in_strs (slice 17 21 line) ELEMENTS); cbn [negb] in H; [|left; congruence].
  right. by exists y, m.
Qed.

Lemma parse_line_NoDup MIN_YEAR line records records' :
  NoDup (dates records) ->
  parse_line MIN_YEAR line records = Ok records' ->
  NoDup (dates records').
Proof.
  intros Hnd H. apply parse_line_days in H as [->|(y & m & _ & _ & H)]; [exact Hnd|].
  revert H. apply (for_each_invariant (fun r => NoDup (dates r))); [|exact Hnd].
  intros day s s'. apply parse_day_NoDup.
Qed.

Lemma build_records_NoDup MIN_YEAR file_content records :
  build_records MIN_YEAR file_content = Ok records -> NoDup (dates records).
Proof.
  unfold build_records. apply (for_each_invariant (fun r => NoDup (dates r))).
  - intros line s s'. apply parse_line_NoDup.
  - apply NoDup_nil_2.
Qed.

(** *** The assembled rows *)

Lemma has_key_is_Some key (data : day_data) :
  has_key key data = true <-> is_Some (data !! key).
Proof.
  unfold has_key. destruct (data !! key); split;
    first [done | by eexists | by intros [? ?]].
Qed.

Lemma has_temperature_keys (data : day_data) :
  has_key "tmax" data || has_key "tmin" data = true <-> has_temperature data.
Proof.
  unfold has_temperature. rewrite orb_true_iff, !has_key_is_Some. reflexivity.
Qed.

Lemma to_rows_elem station (records : records_t) r :
  r ∈ to_rows station records <->
  exists d data, (d, data) ∈ records /\ has_temperature data /\
    r = Row station d (month d) (day d)
            (data !! "tmax") (data !! "tmin") (data !! "prcp") (data !! "snow").
Proof.
  induction records as [|[d0 data0] rest IH]; simpl.
  - split; [intros H; by apply elem_of_nil in H|].
    intros (d & data & H & _). by apply elem_of_nil in H.
  - destruct (has_key "tmax" data0 || has_key "tmin" data0) eqn:E.
    + rewrite elem_of_cons, IH. split.
      * intros [->|(d & data & Hin & Ht & ->)].
        -- exists d0, data0. split; [left|]. split; [by apply has_temperature_keys|done].
        -- exists d, data. split; [by right|done].
      * intros (d & data & Hin & Ht & ->).
        apply elem_of_cons in Hin as [[= -> ->]|Hin]; [by left|].
        right. by exists d, data.
    + rewrite IH. split.
      * intros (d & data & Hin & Ht & ->). exists d, data. split; [by right|done].
      * intros (d & data & Hin & Ht & ->).
        apply elem_of_cons in Hin as [[= -> ->]|Hin].
        -- apply has_temperature_keys in Ht. congruence.
        -- by exists d, data.
Qed.



Lemma to_rows_station station (records : records_t) r :
  r ∈ to_rows station records -> station_id r = station.
Proof. intros H. by apply to_rows_elem in H as (d & data & _ & _ & ->). Qed.

(** ** The claims on [parse_dly_file] *)

(** C1, as the code has it. A temperature reading (TMAX or TMIN) with raw
    value [v] is stored as [trunc(v * 9 / 5 + 320)], the sum cut toward
    zero; this is [trunc(v * 9 / 5) + 320] when [v] is not negative or is a
    multiple of 5, as for v = 0, 100, -50 and 37, which give 320, 500, 230
    and 386. *)
Theorem temperature_stored_as_truncated_sum
    (year month : Z) (element line : string) (day : nat) (records : records_t)
    (v : Z) (d : date) :
  in_strs element TEMPERATURES = true ->
  value_field line day <> "-9999" ->
  py_int (value_field line day) = Some v ->
  py_date year month (Z.of_nat day) = Some d ->
  to_tenths_fahrenheit v = Ok (truncated_sum v) /\
  (exists records' data,
      parse_day year month element line day records = Ok records' /\
      records_get d records' = Some data /\
      data !! lower element = Some (truncated_sum v)) /\
  (0 <= v \/ v mod 5 = 0 -> truncated_sum v = truncated_quotient_plus_320 v) /\
  truncated_sum 0 = 320 /\ truncated_sum 100 = 500 /\
  truncated_sum (-50) = 230 /\ truncated_sum 37 = 386.
Proof.
  intros He Hs Hv Hd. split; [|split; [|split]].
  - apply to_tenths_fahrenheit_exact. eapply value_field_range. exact Hv.
  - eexists _, _. split; [by apply parse_day_reading|].
    split; [apply records_get_put_reading|].
    unfold stored_value. rewrite He. apply lookup_insert_eq.
  - apply truncated_sum_quotient.
  - by vm_compute.
Qed.

Lemma temperature_stored_as_truncated_sum_witness :
  exists records' data,
    parse_day 2020 3 "TMAX" sample_tmax_line 1 [] = Ok records' /\
    records_get (Date 2020 3 1) records' = Some data /\
    data !! "tmax" = Some 590.
Proof.
  assert (H1 : in_strs "TMAX" TEMPERATURES = true) by reflexivity.
  assert (H2 : value_field sample_tmax_line 1 <> "-9999") by (by vm_compute).
  assert (H3 : py_int (value_field sample_tmax_line 1) = Some 150) by reflexivity.
  assert (H4 : py_date 2020 3 (Z.of_nat 1) = Some (Date 2020 3 1)) by reflexivity.
  exact (proj1 (proj2 (temperature_stored_as_truncated_sum
                         2020 3 "TMAX" sample_tmax_line 1 [] 150 (Date 2020 3 1)
                         H1 H2 H3 H4))).
Defined.

(** C1, the counterexample: -0.1 C, the value field [-1], is stored as 318,
    while [trunc(-1 * 9 / 5) + 320] is 319. *)
Lemma minus_one_tenth_stored_as_318 :
  py_int (value_field sample_cold_line 1) = Some (-1) /\
  parse_dly_file 2001 sample_cold_line sample_station =
    Ok [Row sample_station (Date 2020 1 1) 1 1 (Some 318) None None None] /\
  truncated_quotient_plus_320 (-1) = 319 /\
  to_tenths_fahrenheit (-1) <> Ok (truncated_quotient_plus_320 (-1)).
Proof. vm_compute. repeat split. discriminate. Qed.

(** C4. A date is in the output of [parse_dly_file] exactly when the
    grouped records hold a [tmax] or a [tmin] for it; a date that gathered
    neither, only [prcp] or [snow], gives no row. *)
Theorem output_dates_have_temperature
    (MIN_YEAR : Z) (file_content station : string) (rows : list row) :
  parse_dly_file MIN_YEAR file_content station = Ok rows ->
  exists records,
    build_records MIN_YEAR file_content = Ok records /\
    (forall d, d ∈ map obs_date rows <->
               exists data, records_get d records = Some data /\ has_temperature data) /\
    (forall d data, records_get d records = Some data ->
                    data !! "tmax" = None -> data !! "tmin" = None ->
                    d ∉ map obs_date rows).
Proof.
  unfold parse_dly_file. intros H.
  destruct (build_records MIN_YEAR file_content) as [records|] eqn:Hb; [|discriminate].
  cbn [bind] in H. injection H as <-.
  pose proof (build_records_NoDup _ _ _ Hb) as Hnd.
  assert (Hiff : forall d, d ∈ map obs_date (to_rows station records) <->
            exists data, records_get d records = Some data /\ has_temperature data).
  { intros d. split.
    - intros Hd. apply list_elem_of_fmap in Hd as (r & -> & Hr).
      apply to_rows_elem in Hr as (d & data & Hin & Ht & ->). simpl.
      exists data. split; [by apply records_elem_get|exact Ht].
    - intros (data & Hg & Ht). apply records_get_elem in Hg.
      apply list_elem_of_fmap. eexists. split; [|apply to_rows_elem; by exists d, data].
      reflexivity. }
  exists records. split; [reflexivity|]. split; [exact Hiff|].
  intros d data Hg Hmax Hmin Hd. apply Hiff in Hd as (data' & Hg' & [[x Hx]|[x Hx]]);
    rewrite Hg in Hg'; injection Hg' as <-; congruence.
Qed.

Lemma output_dates_have_temperature_witness :
  exists records,
    build_records 2001 sample_file = Ok records /\
    (forall d, d ∈ map obs_date
                 [Row sample_station (Date 2020 3 1) 3 1 (Some 590) None (Some 10) None] <->
               exists data, records_get d records = Some data /\ has_temperature data) /\
    (forall d data, records_get d records = Some data ->
                    data !! "tmax" = None -> data !! "tmin" = None ->
                    d ∉ map obs_date
                      [Row sample_station (Date 2020 3 1) 3 1 (Some 590) None (Some 10) None]).
Proof.
  apply (output_dates_have_temperature 2001 sample_file sample_station).
  vm_compute. reflexivity.
Defined.


(** ** The upsert *)

Lemma do_update_key e x : key (do_update e x) = key x.
Proof. unfold do_update. by case_bool_decide. Qed.

Lemma do_update_conflict e x :
  key x = key e ->
  do_update e x = Row (station_id x) (obs_date x) (obs_month x) (obs_day x)
                      (tmax e) (tmin e) (prcp e) (snow e).
Proof. intros H. unfold do_update. by rewrite bool_decide_eq_true_2. Qed.

Lemma do_update_other e x : key x <> key e -> do_update e x = x.
Proof. intros H. unfold do_update. by rewrite bool_decide_eq_false_2. Qed.

Lemma map_do_update_keys e (tbl : table) : map key (map (do_update e) tbl) = map key tbl.
Proof.
  induction tbl as [|x tbl IH]; simpl; [reflexivity|]. by rewrite do_update_key, IH.
Qed.

Lemma conflicts_keys e (tbl : table) : conflicts e tbl = true <-> key e ∈ map key tbl.
Proof.
  unfold conflicts. rewrite existsb_exists. split.
  - intros (x & Hin & Hk). apply bool_decide_eq_true in Hk. rewrite <- Hk.
    apply list_elem_of_fmap. exists x. split; [reflexivity|]. by apply list_elem_of_In.
  - intros H. apply list_elem_of_fmap in H as (x & Hk & Hin). exists x.
    split; [by apply list_elem_of_In|]. by apply bool_decide_eq_true.
Qed.

Lemma upsert_keys (tbl : table) e :
  map key (upsert tbl e) =
  if conflicts e tbl then map key tbl else map key tbl ++ [key e].
Proof.
  unfold upsert. destruct (conflicts e tbl).
  - apply map_do_update_keys.
  - by rewrite map_app.
Qed.

Lemma upsert_NoDup (tbl : table) e :
  NoDup (map key tbl) -> NoDup (map key (upsert tbl e)).
Proof.
  intros Hnd. rewrite upsert_keys. destruct (conflicts e tbl) eqn:E; [exact Hnd|].
  apply NoDup_app. split; [exact Hnd|]. split; [|apply NoDup_singleton].
  intros k Hk Hk'. apply list_elem_of_singleton in Hk'. subst.
  apply conflicts_keys in Hk. congruence.
Qed.

Lemma upsert_keys_grow (tbl : table) e k :
  k ∈ map key tbl -> k ∈ map key (upsert tbl e).
Proof.
  intros H. rewrite upsert_keys. destruct (conflicts e tbl); [exact H|].
  apply elem_of_app. by left.
Qed.

Lemma upsert_key_in (tbl : table) e : key e ∈ map key (upsert tbl e).
Proof.
  rewrite upsert_keys. destruct (conflicts e tbl) eqn:E.
  - by apply conflicts_keys.
  - apply elem_of_app. right. apply list_elem_of_singleton. reflexivity.
Qed.

Lemma foldl_upsert_NoDup rs : forall tbl : table,
  NoDup (map key tbl) -> NoDup (map key (foldl upsert tbl rs)).
Proof.
  induction rs as [|r rs IH]; intros tbl Hnd; simpl; [exact Hnd|].
  apply IH. by apply upsert_NoDup.
Qed.

Lemma foldl_upsert_keys_grow rs : forall (tbl : table) k,
  k ∈ map key tbl -> k ∈ map key (foldl upsert tbl rs).
Proof.
  induction rs as [|r rs IH]; intros tbl k H; simpl; [exact H|].
  apply IH. by apply upsert_keys_grow.
Qed.

Lemma foldl_upsert_keys_in rs : forall (tbl : table) r,
  r ∈ rs -> key r ∈ map key (foldl upsert tbl rs).
Proof.
  induction rs as [|r0 rs IH]; intros tbl r H; [by apply elem_of_nil in H|].
  simpl. apply elem_of_cons in H as [->|H].
  - apply foldl_upsert_keys_grow, upsert_key_in.
  - by apply IH.
Qed.

Lemma apply_updates_snoc rs r x :
  apply_updates (rs ++ [r]) x = do_update r (apply_updates rs x).
Proof. unfold apply_updates. by rewrite foldl_app. Qed.

(** The updates leave station, date, month and day of a row alone. *)
Lemma apply_updates_frame rs x :
  station_id (apply_updates rs x) = station_id x /\
  obs_date (apply_updates rs x) = obs_date x /\
  obs_month (apply_updates rs x) = obs_month x /\
  obs_day (apply_updates rs x) = obs_day x.
Proof.
  induction rs as [|r rs IH] using rev_ind; [done|].
  rewrite apply_updates_snoc. destruct IH as (H1 & H2 & H3 & H4).
  unfold do_update. case_bool_decide; simpl; by rewrite ?H1, ?H2, ?H3, ?H4.
Qed.

Lemma apply_updates_key rs x : key (apply_updates rs x) = key x.
Proof.
  destruct (apply_updates_frame rs x) as (H1 & H2 & _). unfold key. by rewrite H1, H2.
Qed.

(** Every row of the table after a batch already carries what the batch
    would write to it. *)
Lemma foldl_upsert_settled rs : forall (tbl : table) x,
  x ∈ foldl upsert tbl rs -> apply_updates rs x = x.
Proof.
  induction rs as [|r rs IH] using rev_ind; intros tbl x Hx; [done|].
  rewrite foldl_app in Hx. simpl in Hx. rewrite apply_updates_snoc.
  set (T := foldl upsert tbl rs) in *.
  assert (Hsame : forall z, key z = key r ->
            (tmax z, tmin z, prcp z, snow z) = (tmax r, tmin r, prcp r, snow r) ->
            do_update r (apply_updates rs z) = z).
  { intros z Hk Hv. rewrite do_update_conflict by (by rewrite apply_updates_key).
    destruct (apply_updates_frame rs z) as (-> & -> & -> & ->).
    destruct z; simpl in *. by injection Hv as -> -> -> ->. }
  unfold upsert in Hx. destruct (conflicts r T) eqn:E.
  - apply list_elem_of_fmap in Hx as (y & -> & Hy).
    destruct (decide (key y = key r)) as [Hk|Hk].
    + apply Hsame; [by rewrite do_update_key|].
      by rewrite do_update_conflict by exact Hk.
    + rewrite (do_update_other r y) by exact Hk. rewrite (IH tbl y Hy).
      by apply do_update_other.
  - apply elem_of_app in Hx as [Hx|Hx].
    + rewrite (IH tbl x Hx). apply do_update_other. intros Hk.
      assert (conflicts r T = true); [|congruence].
      apply conflicts_keys. rewrite <- Hk. apply list_elem_of_fmap. by exists x.
    + apply list_elem_of_singleton in Hx as ->. by apply Hsame.
Qed.

(** On a table that already has every key of the batch, the batch only
    updates. *)
Lemma foldl_upsert_present rs : forall tbl : table,
  (forall r, r ∈ rs -> key r ∈ map key tbl) ->
  foldl upsert tbl rs = map (apply_updates rs) tbl.
Proof.
  induction rs as [|r rs IH] using rev_ind; intros tbl Hin.
  - simpl. unfold apply_updates. simpl. by rewrite map_id.
  - rewrite foldl_app. simpl. rewrite IH by (intros r' Hr'; apply Hin, elem_of_app; by left).
    unfold upsert.
    assert (Hc : conflicts r (map (apply_updates rs) tbl) = true).
    { apply conflicts_keys.
      replace (map key (map (apply_updates rs) tbl)) with (map key tbl).
      - apply Hin, elem_of_app. right. by apply list_elem_of_singleton.
      - rewrite map_map. apply map_ext. intros x. by rewrite apply_updates_key. }
    rewrite Hc, map_map. apply map_ext. intros x. by rewrite apply_updates_snoc.
Qed.

(** Proposing the same rows a second time changes nothing. *)
Lemma foldl_upsert_idempotent (tbl : table) rs :
  foldl upsert (foldl upsert tbl rs) rs = foldl upsert tbl rs.
Proof.
  rewrite (foldl_upsert_present rs (foldl upsert tbl rs))
    by (intros r Hr; by apply foldl_upsert_keys_in).
  rewrite <- (map_id (foldl upsert tbl rs)) at 2.
  apply map_ext_in. intros x Hx. apply (foldl_upsert_settled rs tbl).
  by apply list_elem_of_In.
Qed.

(** *** Pages and statements *)

Lemma paginate_concat {A} n : forall (l page : list A),
  concat (paginate n page l) = rev page ++ l.
Proof.
  induction l as [|x l IH]; intros page; cbn [paginate].
  - destruct page; [reflexivity|]. cbn [concat]. by rewrite !app_nil_r.
  - destruct (S (length page) =? n)%nat.
    + cbn [concat]. rewrite IH. cbn [rev app]. by rewrite <- app_assoc.
    + rewrite IH. cbn [rev]. by rewrite <- app_assoc.
Qed.

Lemma for_each_insert_statement pages : forall tbl : table,
  for_each insert_statement pages tbl =
  if forallb (fun page => bool_decide (NoDup (map key page))) pages
  then Ok (foldl upsert tbl (concat pages)) else Raise CardinalityViolation.
Proof.
  induction pages as [|page pages IH]; intros tbl; simpl; [reflexivity|].
  unfold insert_statement at 1. case_bool_decide; simpl; [|reflexivity].
  rewrite IH, foldl_app. reflexivity.
Qed.

Lemma insert_batch_eq (tbl : table) records :
  insert_batch tbl records =
  if pages_ok records then Ok (foldl upsert tbl records) else Raise CardinalityViolation.
Proof.
  unfold insert_batch, pages_ok. rewrite for_each_insert_statement.
  by rewrite paginate_concat.
Qed.

(** ** The batching loop *)

Lemma for_each_app {A S} (body : A -> S -> result S) xs ys s :
  for_each body (xs ++ ys) s = let* s' := for_each body xs s in for_each body ys s'.
Proof.
  revert s. induction xs as [|x xs IH]; intros s; simpl; [reflexivity|].
  destruct (body x s); simpl; [apply IH|reflexivity].
Qed.

Lemma flush_eq st :
  flush st =
  if pages_ok (ld_batch st)
  then Ok (Loader (foldl upsert (ld_table st) (ld_batch st)) [] (ld_flushes st ++ [ld_batch st]))
  else Raise CardinalityViolation.
Proof. unfold flush. rewrite insert_batch_eq. by destruct (pages_ok _). Qed.

(** The pages of rows with pairwise distinct keys are accepted. *)
Lemma paginate_NoDup n : forall (l page : list row),
  NoDup (map key (rev page ++ l)) ->
  forallb (fun pg => bool_decide (NoDup (map key pg))) (paginate n page l) = true.
Proof.
  induction l as [|x l IH]; intros page Hnd; cbn [paginate].
  - rewrite app_nil_r in Hnd. destruct page; [reflexivity|].
    cbn [forallb]. by rewrite bool_decide_eq_true_2.
  - replace (rev page ++ x :: l) with (rev (x :: page) ++ l) in Hnd
      by (cbn [rev]; by rewrite <- app_assoc).
    destruct (S (length page) =? n)%nat.
    + rewrite map_app in Hnd. apply NoDup_app in Hnd as (H1 & _ & H2).
      cbn [forallb]. rewrite bool_decide_eq_true_2 by exact H1. by apply IH.
    + by apply IH.
Qed.

Lemma pages_ok_NoDup rs : NoDup (map key rs) -> pages_ok rs = true.
Proof. intros H. unfold pages_ok. by apply paginate_NoDup. Qed.

(** What a run of the loop has done, in terms of the batches it flushed;
    the same batches are flushed from any other table. *)
Lemma import_loop_run T parsed : forall t b f st,
  for_each (import_records T) parsed (Loader t b f) = Ok st ->
  exists fl,
    ld_flushes st = f ++ fl /\
    ld_table st = foldl upsert t (concat fl) /\
    concat fl ++ ld_batch st = b ++ concat parsed /\
    Forall (fun x => T <= Z.of_nat (length x) /\ x <> []) fl /\
    forall t2, for_each (import_records T) parsed (Loader t2 b f) =
               Ok (Loader (foldl upsert t2 (concat fl)) (ld_batch st) (ld_flushes st)).
Proof.
  induction parsed as [|recs parsed IH]; intros t b f st H.
  - simpl in H. injection H as <-. exists []. simpl. rewrite !app_nil_r. by repeat split.
  - cbn [for_each] in H. destruct recs as [|r recs].
    { cbn [import_records bind] in H. apply IH in H as (fl & ? & ? & ? & ? & Ht2).
      exists fl. repeat split; try done. }
    cbn [import_records ld_table ld_batch ld_flushes] in H.
    destruct (T <=? Z.of_nat (length (b ++ r :: recs))) eqn:E.
    + rewrite flush_eq in H. cbn [ld_table ld_batch ld_flushes] in H.
      destruct (pages_ok (b ++ r :: recs)) eqn:Hp; [|discriminate].
      cbn [bind] in H. apply IH in H as (fl & Hf & Htbl & Hc & Hall & Ht2).
      exists ((b ++ r :: recs) :: fl). repeat split.
      * by rewrite Hf, <- app_assoc.
      * by rewrite Htbl, <- foldl_app.
      * cbn [concat]. rewrite <- app_assoc, Hc. simpl. by rewrite <- app_assoc.
      * apply Forall_cons. split; [|exact Hall]. split; [by apply Z.leb_le|].
        by destruct b.
      * intros t2. cbn [for_each import_records ld_table ld_batch ld_flushes].
        rewrite E, flush_eq. cbn [ld_table ld_batch ld_flushes]. rewrite Hp.
        cbn [bind]. rewrite Ht2. by rewrite <- foldl_app.
    + cbn [bind] in H. apply IH in H as (fl & Hf & Htbl & Hc & Hall & Ht2).
      exists fl. repeat split; try done.
      * rewrite Hc. simpl. by rewrite <- app_assoc.
      * intros t2. cbn [for_each import_records ld_table ld_batch ld_flushes].
        rewrite E. cbn [bind]. apply Ht2.
Qed.

(** The same for the whole of [import_batches]. *)
Lemma import_batches_run T parsed tbl st :
  import_batches T parsed tbl = Ok st ->
  ld_batch st = [] /\
  concat (ld_flushes st) = concat parsed /\
  ld_table st = foldl upsert tbl (concat parsed) /\
  Forall (fun x => x <> []) (ld_flushes st) /\
  (forall i x, ld_flushes st !! i = Some x -> (S i < length (ld_flushes st))%nat ->
               T <= Z.of_nat (length x)) /\
  forall t2, import_batches T parsed t2 =
             Ok (Loader (foldl upsert t2 (concat parsed)) [] (ld_flushes st)).
Proof.
  unfold import_batches. intros H.
  destruct (for_each (import_records T) parsed (Loader tbl [] [])) as [st1|] eqn:E;
    [|discriminate].
  cbn [bind] in H.
  apply import_loop_run in E as (fl & Hf & Htbl & Hc & Hall & Ht2).
  simpl in Hf, Hc. unfold import_rest in H.
  destruct (ld_batch st1) as [|r rest] eqn:Hb.
  - injection H as H. subst st. rewrite app_nil_r in Hc. rewrite Hb, Hf, Hc.
    repeat split; try done.
    + by rewrite Htbl, Hc.
    + eapply Forall_impl; [exact Hall|]. by intros x [_ ?].
    + intros i x Hi _. eapply Forall_lookup_1 in Hall as [? _]; [|exact Hi]. done.
    + intros t2. rewrite Ht2. unfold import_rest. cbn [bind ld_batch]. by rewrite Hc, Hf.
  - rewrite flush_eq, Hb in H. destruct (pages_ok (r :: rest)) eqn:Hp; [|discriminate].
    injection H as <-. cbn [ld_batch ld_flushes ld_table]. rewrite Hf.
    repeat split.
    + rewrite concat_app, <- Hc. simpl. by rewrite app_nil_r.
    + rewrite Htbl, <- Hc, foldl_app. reflexivity.
    + apply Forall_app. split; [|by repeat constructor].
      eapply Forall_impl; [exact Hall|]. by intros x [_ ?].
    + intros i x Hi Hlt. rewrite length_app in Hlt. simpl in Hlt.
      rewrite lookup_app_l in Hi by lia.
      eapply Forall_lookup_1 in Hall as [? _]; [|exact Hi]. done.
    + intros t2. rewrite Ht2. unfold import_rest. cbn [bind ld_batch]. rewrite flush_eq.
      cbn [ld_table ld_batch ld_flushes]. rewrite Hp, Hf.
      by rewrite <- Hc, foldl_app.
Qed.

(** Rows with pairwise distinct keys never make a flush fail. *)
Lemma import_loop_total T parsed : forall t b f,
  NoDup (map key (b ++ concat parsed)) ->
  exists st, for_each (import_records T) parsed (Loader t b f) = Ok st /\
             NoDup (map key (ld_batch st)).
Proof.
  induction parsed as [|recs parsed IH]; intros t b f Hnd.
  - simpl in *. rewrite app_nil_r in Hnd. by eexists.
  - cbn [for_each]. destruct recs as [|r recs].
    { cbn [import_records bind]. by apply IH. }
    cbn [import_records ld_table ld_batch ld_flushes].
    cbn [concat] in Hnd. rewrite app_assoc, map_app in Hnd.
    destruct (T <=? Z.of_nat (length (b ++ r :: recs))).
    + rewrite flush_eq. cbn [ld_table ld_batch ld_flushes].
      apply NoDup_app in Hnd as (H1 & _ & H2).
      rewrite pages_ok_NoDup by exact H1. cbn [bind]. by apply IH.
    + cbn [bind]. apply IH. by rewrite map_app.
Qed.

Lemma import_batches_total T parsed tbl :
  NoDup (map key (concat parsed)) -> exists st, import_batches T parsed tbl = Ok st.
Proof.
  intros Hnd. unfold import_batches.
  destruct (import_loop_total T parsed tbl [] [] Hnd) as (st & -> & Hb).
  cbn [bind]. unfold import_rest. destruct (ld_batch st) eqn:E; [by eexists|].
  rewrite flush_eq, E, pages_ok_NoDup by exact Hb. by eexists.
Qed.

(** One-row files fill the buffer without a flush while it stays below the
    threshold. *)
Lemma one_row_files_fill T rs : forall t b f,
  Z.of_nat (length b + length rs) < T ->
  for_each (import_records T) (one_row_files rs) (Loader t b f) = Ok (Loader t (b ++ rs) f).
Proof.
  induction rs as [|r rs IH]; intros t b f Hlen; simpl.
  - by rewrite app_nil_r.
  - simpl in Hlen.
    replace (T <=? Z.of_nat (length (b ++ [r]))) with false
      by (symmetry; apply Z.leb_gt; rewrite length_app; simpl; lia).
    cbn [bind]. rewrite IH by (rewrite length_app; simpl; lia).
    by rewrite <- app_assoc.
Qed.

(** The row that brings the buffer to the threshold makes it flush. *)
Lemma one_row_files_full T rs t f :
  1 <= T -> Z.of_nat (length rs) = T -> pages_ok rs = true ->
  for_each (import_records T) (one_row_files rs) (Loader t [] f) =
  Ok (Loader (foldl upsert t rs) [] (f ++ [rs])).
Proof.
  intros HT Hlen Hp.
  destruct rs as [|r0 rs0] using rev_ind; [simpl in Hlen; lia|]. clear IHrs0.
  rewrite length_app in Hlen. simpl in Hlen.
  unfold one_row_files. rewrite map_app, for_each_app.
  fold (one_row_files rs0). rewrite one_row_files_fill by (simpl; lia).
  cbn [bind map for_each import_records ld_table ld_batch ld_flushes app].
  replace (T <=? Z.of_nat (length (rs0 ++ [r0]))) with true
    by (symmetry; apply Z.leb_le; rewrite length_app; simpl; lia).
  rewrite flush_eq. cbn [ld_table ld_batch ld_flushes]. by rewrite Hp.
Qed.

(** C2, as the code has it. The buffer is looked at once per station file,
    after the rows of the file have been appended: it is handed to
    [insert_batch] whole, and cleared, exactly when it then holds at least
    [BATCH_SIZE] rows, so a flushed batch can be longer than the threshold;
    what is left at the end is flushed once. Every row is flushed, in
    order, no batch is empty, and every batch but the last has at least
    [BATCH_SIZE] rows. When every file gives one row, [BATCH_SIZE - 1],
    [BATCH_SIZE] and [BATCH_SIZE + 1] rows make 1, 1 and 2 flushes. *)
Theorem flushes_follow_station_files (BATCH_SIZE : Z) :
  (forall t b f records,
      records <> [] -> NoDup (map key (b ++ records)) ->
      import_records BATCH_SIZE records (Loader t b f) =
      if BATCH_SIZE <=? Z.of_nat (length (b ++ records))
      then Ok (Loader (foldl upsert t (b ++ records)) [] (f ++ [b ++ records]))
      else Ok (Loader t (b ++ records) f)) /\
  (forall parsed tbl st,
      import_batches BATCH_SIZE parsed tbl = Ok st ->
      ld_batch st = [] /\
      concat (ld_flushes st) = concat parsed /\
      Forall (fun x => x <> []) (ld_flushes st) /\
      (forall i x, ld_flushes st !! i = Some x -> (S i < length (ld_flushes st))%nat ->
                   BATCH_SIZE <= Z.of_nat (length x))) /\
  (forall rs tbl,
      2 <= BATCH_SIZE -> NoDup (map key rs) ->
      (Z.of_nat (length rs) = BATCH_SIZE - 1 \/ Z.of_nat (length rs) = BATCH_SIZE ->
       exists st, import_batches BATCH_SIZE (one_row_files rs) tbl = Ok st /\
                  length (ld_flushes st) = 1%nat) /\
      (Z.of_nat (length rs) = BATCH_SIZE + 1 ->
       exists st, import_batches BATCH_SIZE (one_row_files rs) tbl = Ok st /\
                  length (ld_flushes st) = 2%nat)).
Proof.
  split; [|split].
  - intros t b f records Hne Hnd. destruct records as [|r records]; [done|].
    cbn [import_records ld_table ld_batch ld_flushes].
    destruct (BATCH_SIZE <=? _); [|reflexivity].
    rewrite flush_eq. cbn [ld_table ld_batch ld_flushes].
    by rewrite pages_ok_NoDup.
  - intros parsed tbl st H.
    apply import_batches_run in H as (H1 & H2 & _ & H3 & H4 & _). done.
  - intros rs tbl HT Hnd. split.
    + intros [Hlen|Hlen]; unfold import_batches.
      * rewrite one_row_files_fill by (simpl; lia). cbn [bind app]. unfold import_rest.
        cbn [ld_batch]. destruct rs as [|r rs]; [simpl in Hlen; lia|].
        rewrite flush_eq. cbn [ld_table ld_batch ld_flushes].
        rewrite pages_ok_NoDup by exact Hnd. by eexists.
      * rewrite one_row_files_full by (try lia; by apply pages_ok_NoDup).
        cbn [bind]. by eexists.
    + intros Hlen. unfold import_batches.
      destruct rs as [|r rs0] using rev_ind; [simpl in Hlen; lia|]. clear IHrs0.
      rewrite length_app in Hlen. simpl in Hlen.
      rewrite map_app in Hnd. apply NoDup_app in Hnd as (Hnd0 & _ & Hndr).
      unfold one_row_files. rewrite map_app, for_each_app. fold (one_row_files rs0).
      rewrite one_row_files_full by (try lia; by apply pages_ok_NoDup).
      cbn [bind map for_each import_records ld_table ld_batch ld_flushes app length].
      replace (BATCH_SIZE <=? Z.of_nat 1) with false by (symmetry; apply Z.leb_gt; lia).
      cbn [bind]. unfold import_rest. cbn [ld_batch]. rewrite flush_eq.
      cbn [ld_table ld_batch ld_flushes]. rewrite pages_ok_NoDup by exact Hndr.
      by eexists.
Qed.

(** C2, the counterexample: with a threshold of 2, one station file of 3
    rows, which is threshold + 1 rows in all, makes one flush, where the
    claim counts two. *)
Lemma one_file_above_threshold_one_flush :
  let parsed := [[sample_row_1; sample_row_2; sample_row_3]] in
  length (concat parsed) = 3%nat /\
  exists st, import_batches 2 parsed [] = Ok st /\
             ld_flushes st = [[sample_row_1; sample_row_2; sample_row_3]] /\
             length (ld_flushes st) <> 2%nat.
Proof.
  split; [reflexivity|]. eexists. split; [vm_compute; reflexivity|].
  split; [reflexivity|]. simpl. lia.
Qed.

(** *** Looking rows up *)

Lemma find_row_key k (tbl : table) x : find_row k tbl = Some x -> key x = k.
Proof.
  unfold find_row. intros H. apply find_some in H as [_ H].
  by apply bool_decide_eq_true in H.
Qed.

Lemma find_row_map_do_update k e (tbl : table) :
  find_row k (map (do_update e) tbl) = do_update e <$> find_row k tbl.
Proof.
  unfold find_row. induction tbl as [|x tbl IH]; simpl; [reflexivity|].
  rewrite do_update_key. by case_bool_decide.
Qed.

Lemma find_row_conflicts e (tbl : table) x :
  find_row (key e) tbl = Some x -> conflicts e tbl = true.
Proof.
  unfold find_row. intros H. apply find_some in H as [Hin Hk].
  unfold conflicts. apply existsb_exists. by exists x.
Qed.

Lemma foldl_upsert_keys_prefix rs : forall tbl : table,
  map key tbl `prefix_of` map key (foldl upsert tbl rs).
Proof.
  induction rs as [|r rs IH]; intros tbl; simpl; [done|].
  etrans; [|apply IH]. rewrite upsert_keys.
  destruct (conflicts r tbl); [done|]. by apply prefix_app_r.
Qed.

Lemma find_row_app k (t1 t2 : table) :
  find_row k (t1 ++ t2) =
  match find_row k t1 with Some x => Some x | None => find_row k t2 end.
Proof.
  unfold find_row. induction t1 as [|x t1 IH]; simpl; [reflexivity|].
  by case_bool_decide.
Qed.

Lemma find_row_none_conflicts e (tbl : table) :
  find_row (key e) tbl = None -> conflicts e tbl = false.
Proof.
  unfold find_row, conflicts. intros H.
  destruct (existsb _ tbl) eqn:E; [|reflexivity].
  apply existsb_exists in E as (x & Hin & Hx).
  by rewrite (find_none _ _ H x Hin) in Hx.
Qed.

(** What the row of a key is after one proposed row. *)
Lemma find_row_upsert (tbl : table) e k :
  find_row k (upsert tbl e) =
  if decide (k = key e) then
    Some (match find_row k tbl with
          | Some y => Row (station_id y) (obs_date y) (obs_month y) (obs_day y)
                          (tmax e) (tmin e) (prcp e) (snow e)
          | None => e
          end)
  else find_row k tbl.
Proof.
  destruct (decide (k = key e)) as [->|Hne].
  - destruct (find_row (key e) tbl) as [y|] eqn:Hy.
    + unfold upsert. rewrite (find_row_conflicts _ _ _ Hy), find_row_map_do_update, Hy.
      simpl. by rewrite do_update_conflict by (by apply find_row_key in Hy).
    + unfold upsert. rewrite (find_row_none_conflicts _ _ Hy), find_row_app, Hy.
      unfold find_row. simpl. by rewrite bool_decide_eq_true_2.
  - unfold upsert. destruct (conflicts e tbl).
    + rewrite find_row_map_do_update. destruct (find_row k tbl) as [y|] eqn:Hy; [|done].
      simpl. apply find_row_key in Hy. by rewrite do_update_other by congruence.
    + rewrite find_row_app. destruct (find_row k tbl); [reflexivity|].
      unfold find_row. simpl. by rewrite bool_decide_eq_false_2.
Qed.

Lemma find_all_false {A} (f : A -> bool) (l : list A) :
  (forall x, In x l -> f x = false) -> find f l = None.
Proof.
  induction l as [|x l IH]; intros H; simpl; [reflexivity|].
  rewrite (H x) by (by left). apply IH. intros y Hy. apply H. by right.
Qed.

Lemma last_proposed_snoc k rs r :
  last_proposed k (rs ++ [r]) =
  if bool_decide (key r = k) then Some r else last_proposed k rs.
Proof. unfold last_proposed. by rewrite rev_app_distr. Qed.

Lemma last_proposed_none k rs : last_proposed k rs = None -> find_row k rs = None.
Proof.
  unfold last_proposed, find_row. intros H. apply find_all_false.
  intros x Hx. apply (find_none _ _ H). by apply in_rev in Hx.
Qed.

Lemma last_proposed_some k rs l :
  last_proposed k rs = Some l -> exists f, find_row k rs = Some f.
Proof.
  unfold last_proposed, find_row. intros H. apply find_some in H as [Hin Hk].
  apply in_rev in Hin.
  destruct (find _ rs) as [f|] eqn:E; [by exists f|].
  by rewrite (find_none _ _ E l Hin) in Hk.
Qed.

(** What the row of a key is after the rows of a batch. *)
Lemma find_row_foldl_upsert rs : forall (tbl : table) k,
  find_row k (foldl upsert tbl rs) = row_after k tbl rs.
Proof.
  induction rs as [|r rs IH] using rev_ind; intros tbl k; [reflexivity|].
  rewrite foldl_app. cbn [foldl]. rewrite find_row_upsert, IH.
  unfold row_after. rewrite last_proposed_snoc, find_row_app.
  destruct (decide (k = key r)) as [->|Hne].
  - rewrite bool_decide_eq_true_2 by reflexivity.
    destruct (last_proposed (key r) rs) as [l|] eqn:El.
    + destruct (last_proposed_some _ _ _ El) as [f ->].
      by destruct (find_row (key r) tbl).
    + rewrite (last_proposed_none _ _ El).
      destruct (find_row (key r) tbl); [reflexivity|].
      unfold find_row. cbn [find]. rewrite bool_decide_eq_true_2 by reflexivity.
      by destruct r.
  - rewrite bool_decide_eq_false_2 by congruence.
    destruct (last_proposed k rs) as [l|] eqn:El; [|reflexivity].
    by destruct (last_proposed_some _ _ _ El) as [f ->].
Qed.

(** C3. With the key (station_id, date) unique in the table, a batch that
    [insert_batch] has accepted leaves the keys unique and the rows that
    were there in their place; a row of the table whose key the batch
    proposes is overwritten, not doubled: it takes the [tmax], [tmin],
    [prcp] and [snow] of the last row proposing its key; and handing the
    same rows over again gives the same table. The same holds for a whole
    run of the loader: run again on the table it produced, it ends in the
    same state. *)
Theorem upsert_rerun_changes_nothing (tbl : table) :
  NoDup (map key tbl) ->
  (forall records tbl',
      insert_batch tbl records = Ok tbl' ->
      insert_batch tbl' records = Ok tbl' /\
      NoDup (map key tbl') /\
      map key tbl `prefix_of` map key tbl' /\
      (forall k, find_row k tbl' = row_after k tbl records) /\
      (forall y r,
          find_row (key r) tbl = Some y -> last_proposed (key r) records = Some r ->
          find_row (key r) tbl' =
          Some (Row (station_id y) (obs_date y) (obs_month y) (obs_day y)
                    (tmax r) (tmin r) (prcp r) (snow r)))) /\
  (forall BATCH_SIZE parsed st,
      import_batches BATCH_SIZE parsed tbl = Ok st ->
      NoDup (map key (ld_table st)) /\
      (forall k, find_row k (ld_table st) = row_after k tbl (concat parsed)) /\
      import_batches BATCH_SIZE parsed (ld_table st) = Ok st).
Proof.
  intros Hnd. split.
  - intros records tbl' H. rewrite insert_batch_eq in H.
    destruct (pages_ok records) eqn:Hp; [|discriminate]. injection H as <-.
    split; [|split; [|split; [|split]]].
    + by rewrite insert_batch_eq, Hp, foldl_upsert_idempotent.
    + by apply foldl_upsert_NoDup.
    + apply foldl_upsert_keys_prefix.
    + intros k. apply find_row_foldl_upsert.
    + intros y r Hy Hr. rewrite find_row_foldl_upsert. unfold row_after.
      by rewrite Hr, Hy.
  - intros T parsed st H.
    apply import_batches_run in H as (Hb & _ & Ht & _ & _ & Hrun).
    split; [rewrite Ht; by apply foldl_upsert_NoDup|].
    split; [intros k; rewrite Ht; apply find_row_foldl_upsert|].
    rewrite Hrun, Ht, foldl_upsert_idempotent, <- Ht, <- Hb. by destruct st.
Qed.

Lemma upsert_rerun_changes_nothing_witness :
  insert_batch [sample_row_1; sample_row_2] [sample_row_1_again; sample_row_3] =
    Ok [Row sample_station (Date 2020 3 1) 3 1 (Some 612) (Some 433) None None;
        sample_row_2; sample_row_3] /\
  insert_batch [Row sample_station (Date 2020 3 1) 3 1 (Some 612) (Some 433) None None;
                sample_row_2; sample_row_3]
               [sample_row_1_again; sample_row_3] =
    Ok [Row sample_station (Date 2020 3 1) 3 1 (Some 612) (Some 433) None None;
        sample_row_2; sample_row_3] /\
  find_row (key sample_row_1_again)
           [Row sample_station (Date 2020 3 1) 3 1 (Some 612) (Some 433) None None;
            sample_row_2; sample_row_3] =
    Some (Row (station_id sample_row_1) (obs_date sample_row_1)
              (obs_month sample_row_1) (obs_day sample_row_1)
              (tmax sample_row_1_again) (tmin sample_row_1_again)
              (prcp sample_row_1_again) (snow sample_row_1_again)).
Proof.
  assert (Hnd : NoDup (map key [sample_row_1; sample_row_2])).
  { apply (bool_decide_unpack _). by vm_compute. }
  assert (H : insert_batch [sample_row_1; sample_row_2] [sample_row_1_again; sample_row_3] =
    Ok [Row sample_station (Date 2020 3 1) 3 1 (Some 612) (Some 433) None None;
        sample_row_2; sample_row_3]) by (vm_compute; reflexivity).
  destruct (proj1 (upsert_rerun_changes_nothing _ Hnd) _ _ H)
    as (Hagain & _ & _ & _ & Hwritten).
  split; [exact H|]. split; [exact Hagain|].
  apply Hwritten; reflexivity.
Defined.

(** C8. When the proposed row conflicts with a row of the table, that row
    takes the proposed [tmax], [tmin], [prcp] and [snow] and keeps its own
    month and day (and key); no row is added and the rows of other keys are
    as before. *)
Theorem upsert_conflict_keeps_month_day (tbl : table) (excluded x : row) :
  find_row (key excluded) tbl = Some x ->
  insert_batch tbl [excluded] = Ok (upsert tbl excluded) /\
  find_row (key excluded) (upsert tbl excluded) =
    Some (Row (station_id x) (obs_date x) (obs_month x) (obs_day x)
              (tmax excluded) (tmin excluded) (prcp excluded) (snow excluded)) /\
  length (upsert tbl excluded) = length tbl /\
  (forall k, k <> key excluded -> find_row k (upsert tbl excluded) = find_row k tbl).
Proof.
  intros Hx. pose proof (find_row_conflicts _ _ _ Hx) as Hc.
  split; [|split; [|split]].
  - rewrite insert_batch_eq. rewrite pages_ok_NoDup; [reflexivity|]. apply NoDup_singleton.
  - unfold upsert. rewrite Hc, find_row_map_do_update, Hx. simpl.
    by rewrite do_update_conflict by (by apply find_row_key in Hx).
  - unfold upsert. rewrite Hc. apply length_map.
  - intros k Hk. unfold upsert. rewrite Hc, find_row_map_do_update.
    destruct (find_row k tbl) as [y|] eqn:Hy; [|reflexivity]. simpl.
    apply find_row_key in Hy. by rewrite do_update_other by congruence.
Qed.

Lemma upsert_conflict_keeps_month_day_witness :
  find_row (key sample_row_1_again) (upsert [sample_row_1; sample_row_2] sample_row_1_again) =
    Some (Row sample_station (Date 2020 3 1) 3 1 (Some 612) (Some 433) None None).
Proof.
  assert (H : find_row (key sample_row_1_again) [sample_row_1; sample_row_2]
              = Some sample_row_1) by reflexivity.
  exact (proj1 (proj2 (upsert_conflict_keeps_month_day _ _ _ H))).
Defined.

(** ** The station list *)

Section StationProperties.

Variable py_float : string -> option float.

Lemma decode_station_us line :
  startswith "US" (strip (slice 0 11 line)) = true ->
  valid_station_line py_float line ->
  exists lat lon elev,
    py_float (strip (slice 12 20 line)) = Some lat /\
    py_float (strip (slice 21 30 line)) = Some lon /\
    (strip (slice 31 37 line) = EmptyString -> elev = None) /\
    (strip (slice 31 37 line) <> EmptyString ->
     elev = py_float (strip (slice 31 37 line))) /\
    decode_station py_float line =
    Ok (Some (Station (strip (slice 0 11 line)) (strip (slice 41 71 line)) lat lon elev)).
Proof.
  intros Hus ([lat Hlat] & [lon Hlon] & Helev). unfold decode_station.
  rewrite Hus, Hlat, Hlon. cbn [negb bind or_value_error].
  destruct (strip (slice 31 37 line)) as [|c e] eqn:He.
  - exists lat, lon, None. by repeat split.
  - destruct Helev as [|[x Hx]]; [discriminate|]. rewrite Hx.
    exists lat, lon, (Some x). by repeat split.
Qed.

Lemma decode_station_foreign line :
  startswith "US" (strip (slice 0 11 line)) = false ->
  decode_station py_float line = Ok None.
Proof. intros H. unfold decode_station. by rewrite H. Qed.

(** C9. For a station line whose number fields are readable, decoding gives
    one result, the same each time the line is decoded; the line is kept
    exactly when its identifier, columns 1-11 trimmed, starts with [US];
    and the tuple kept holds the identifier, the name, latitude and
    longitude as read, and an elevation that is absent exactly when its
    field is blank. *)
Theorem station_decoding (line : string) :
  valid_station_line py_float line ->
  (forall a b, decode_station py_float line = a -> decode_station py_float line = b ->
               a = b) /\
  (startswith "US" (strip (slice 0 11 line)) = true <->
   exists st, decode_station py_float line = Ok (Some st)) /\
  (forall st,
      decode_station py_float line = Ok (Some st) ->
      decode_stations py_float [line; line] = Ok [st; st] /\
      st_id st = strip (slice 0 11 line) /\
      st_name st = strip (slice 41 71 line) /\
      py_float (strip (slice 12 20 line)) = Some (st_lat st) /\
      py_float (strip (slice 21 30 line)) = Some (st_lon st) /\
      (strip (slice 31 37 line) = EmptyString <-> st_elev st = None) /\
      (strip (slice 31 37 line) <> EmptyString ->
       st_elev st = py_float (strip (slice 31 37 line)))).
Proof.
  intros Hvalid. split; [congruence|]. split.
  - split.
    + intros Hus. destruct (decode_station_us line Hus Hvalid)
        as (lat & lon & elev & _ & _ & _ & _ & ->). by eexists.
    + intros [st Hst].
      destruct (startswith "US" (strip (slice 0 11 line))) eqn:Hus; [reflexivity|].
      rewrite decode_station_foreign in Hst by exact Hus. discriminate.
  - intros st Hst.
    destruct (startswith "US" (strip (slice 0 11 line))) eqn:Hus;
      [|rewrite decode_station_foreign in Hst by exact Hus; discriminate].
    destruct (decode_station_us line Hus Hvalid)
      as (lat & lon & elev & Hlat & Hlon & He1 & He2 & Hd).
    cbn [decode_stations]. rewrite Hst. cbn [bind]. split; [reflexivity|].
    rewrite Hd in Hst. injection Hst as <-. cbn [st_id st_name st_lat st_lon st_elev].
    repeat split; try done.
    intros ->. destruct (strip (slice 31 37 line)) as [|c e] eqn:E; [reflexivity|].
    destruct Hvalid as (_ & _ & [H0|[x Hx]]); [congruence|].
    rewrite E in Hx. rewrite <- He2 in Hx by done. discriminate.
Qed.

End StationProperties.

Lemma station_decoding_witness :
  exists st,
    decode_station plain_decimal sample_us_station_line = Ok (Some st) /\
    st_id st = "US1MNCV0008" /\ st_name st = "LAKEVILLE 2.0 SSE".
Proof.
  assert (Hv : valid_station_line plain_decimal sample_us_station_line).
  { unfold valid_station_line. split; [|split; [|right]];
      eexists; vm_compute; reflexivity. }
  destruct (station_decoding plain_decimal sample_us_station_line Hv) as (_ & Hus & Hst).
  destruct (proj1 Hus eq_refl) as [st Hd].
  exists st. split; [exact Hd|].
  destruct (Hst st Hd) as (_ & -> & -> & _). split; reflexivity.
Defined.

(** * Further properties of the parser *)

Lemma parse_day_total year month element line day (records : records_t) :
  exists records', parse_day year month element line day records = Ok records'.
Proof.
  destruct (parse_day_cases year month element line day records)
    as [E|(v & d & _ & _ & _ & E)]; rewrite E; by eexists.
Qed.

Lemma parse_line_total MIN_YEAR line (records : records_t) :
  line_raises MIN_YEAR line = false ->
  exists records', parse_line MIN_YEAR line records = Ok records'.
Proof.
  unfold line_raises, parse_line. intros H.
  destruct (String.length line <? 269)%nat eqn:E; [by eexists|].
  apply Nat.ltb_ge in E. apply Nat.leb_le in E. rewrite E in H. cbn [andb] in H.
  destruct (py_int (slice 11 15 line)) as [y|]; [|discriminate].
  cbn [bind or_value_error].
  destruct (y <? MIN_YEAR) eqn:Ey; [by eexists|].
  apply Z.ltb_ge in Ey. apply Z.leb_le in Ey. rewrite Ey in H. cbn [andb] in H.
  destruct (py_int (slice 15 17 line)) as [m|]; [|discriminate].
  cbn [bind or_value_error].
  destruct (negb _); [by eexists|].
  apply for_each_total. intros day s. apply parse_day_total.
Qed.

Lemma parse_line_raises MIN_YEAR line (records : records_t) :
  line_raises MIN_YEAR line = true ->
  parse_line MIN_YEAR line records = Raise ValueError.
Proof.
  unfold line_raises, parse_line. intros H.
  apply andb_prop in H as [Hlen H]. apply Nat.leb_le in Hlen.
  replace (String.length line <? 269)%nat with false
    by (symmetry; apply Nat.ltb_ge; exact Hlen).
  destruct (py_int (slice 11 15 line)) as [y|]; [|reflexivity].
  cbn [bind or_value_error]. apply andb_prop in H as [Hy H].
  replace (y <? MIN_YEAR) with false by (symmetry; apply Z.ltb_ge; by apply Z.leb_le).
  destruct (py_int (slice 15 17 line)) as [m|]; [discriminate|reflexivity].
Qed.

Lemma parse_lines_outcome MIN_YEAR lines : forall records : records_t,
  (Forall (fun line => line_raises MIN_YEAR line = false) lines /\
   exists records', for_each (parse_line MIN_YEAR) lines records = Ok records') \/
  (Exists (fun line => line_raises MIN_YEAR line = true) lines /\
   for_each (parse_line MIN_YEAR) lines records = Raise ValueError).
Proof.
  induction lines as [|line lines IH]; intros records.
  - left. split; [constructor|by eexists].
  - cbn [for_each]. destruct (line_raises MIN_YEAR line) eqn:E.
    + right. split; [by left|]. by rewrite parse_line_raises.
    + destruct (parse_line_total MIN_YEAR line records E) as [r1 ->]. cbn [bind].
      destruct (IH r1) as [[Hall Hok]|[Hex Hr]].
      * left. split; [by constructor|exact Hok].
      * right. split; [by right|exact Hr].
Qed.

(** X1. The only exception that leaves [parse_dly_file] is [ValueError],
    and it does so exactly when some line of at least 269 characters has
    a year field that is not an integer, or a year not below [MIN_YEAR]
    with a month field that is not an integer. Value fields, dates and the
    temperature conversion never make it fail. *)
Theorem parse_dly_file_raises_only_on_year_or_month
    (MIN_YEAR : Z) (file_content station : string) :
  ((exists rows, parse_dly_file MIN_YEAR file_content station = Ok rows) <->
   Forall (fun line => line_raises MIN_YEAR line = false) (split_on "010" file_content)) /\
  (parse_dly_file MIN_YEAR file_content station = Raise ValueError <->
   Exists (fun line => line_raises MIN_YEAR line = true) (split_on "010" file_content)) /\
  (forall e, parse_dly_file MIN_YEAR file_content station = Raise e -> e = ValueError).
Proof.
  unfold parse_dly_file, build_records.
  destruct (parse_lines_outcome MIN_YEAR (split_on "010" file_content) [])
    as [[Hall [r Hok]]|[Hex Hr]].
  - rewrite Hok. cbn [bind]. split; [|split].
    + split; [done|]. intros _. by eexists.
    + split; [discriminate|]. intros Hex. exfalso.
      apply Exists_exists in Hex as (l & Hl & Ht).
      rewrite Forall_forall in Hall. specialize (Hall l Hl). congruence.
    + discriminate.
  - rewrite Hr. cbn [bind]. split; [|split].
    + split; [by intros [? ?]|]. intros Hall. exfalso.
      apply Exists_exists in Hex as (l & Hl & Ht).
      rewrite Forall_forall in Hall. specialize (Hall l Hl). congruence.
    + done.
    + by intros e [= <-].
Qed.

(** ** The shape of the rows *)

Lemma records_store_elem d key x (records : records_t) d' data' :
  (d', data') ∈ records_store d key x records ->
  (d', data') ∈ records \/
  (d' = d /\ exists data0, (d, data0) ∈ records /\ data' = <[key := x]> data0).
Proof.
  induction records as [|[d0 data0] rest IH]; simpl; [by left|].
  destruct (decide (d0 = d)) as [->|Hne]; intros H;
    apply elem_of_cons in H as [H|H].
  - injection H as -> ->. right. split; [reflexivity|]. exists data0. split; [left|done].
  - left. by right.
  - left. rewrite H. left.
  - destruct (IH H) as [?|(-> & data1 & ? & ->)]; [left; by right|].
    right. split; [reflexivity|]. exists data1. split; [by right|done].
Qed.

Lemma put_reading_elem d key x (records : records_t) d' data' :
  (d', data') ∈ put_reading d key x records ->
  (d', data') ∈ records \/
  (d' = d /\
   (data' = ∅ \/
    exists data0, (data0 = ∅ \/ (d, data0) ∈ records) /\ data' = <[key := x]> data0)).
Proof.
  unfold put_reading. intros H. apply records_store_elem in H.
  destruct (records_mem d records).
  - destruct H as [?|(-> & data0 & ? & ->)]; [by left|].
    right. split; [reflexivity|]. right. exists data0. split; [by right|done].
  - destruct H as [H|(-> & data0 & H & ->)].
    + apply elem_of_app in H as [?|H]; [by left|].
      apply list_elem_of_singleton in H. injection H as -> ->.
      right. split; [reflexivity|]. by left.
    + right. split; [reflexivity|]. right. exists data0. split; [|done].
      apply elem_of_app in H as [?|H]; [by right|].
      apply list_elem_of_singleton in H. injection H as ->. by left.
Qed.

Lemma in_strs_elements element :
  in_strs element ELEMENTS = true ->
  element = "TMAX" \/ element = "TMIN" \/ element = "PRCP" \/ element = "SNOW".
Proof.
  unfold in_strs, ELEMENTS. cbn [existsb]. rewrite !orb_true_iff, !String.eqb_eq.
  intros [?|[?|[?|[?|?]]]]; auto. discriminate.
Qed.

Lemma truncated_sum_range v :
  -9999 <= v <= 99999 -> -17678 <= truncated_sum v <= 180318.
Proof.
  intros Hv. unfold truncated_sum. split.
  - change (-17678) with (Z.quot (-9999 * 9 + 1600) 5). apply Z.quot_le_mono; lia.
  - change 180318 with (Z.quot (99999 * 9 + 1600) 5). apply Z.quot_le_mono; lia.
Qed.

Lemma entry_ok_empty MIN_YEAR d :
  valid_calendar_date (year d) (month d) (day d) -> MIN_YEAR <= year d ->
  entry_ok MIN_YEAR d ∅.
Proof.
  intros Hv Hy. unfold entry_ok, temperature_in_range, raw_in_range.
  rewrite !lookup_empty. split; [exact Hv|]. split; [exact Hy|].
  repeat split; discriminate.
Qed.

Lemma entry_ok_put MIN_YEAR d (data : day_data) element v :
  entry_ok MIN_YEAR d data ->
  in_strs element ELEMENTS = true -> -9999 <= v <= 99999 ->
  entry_ok MIN_YEAR d (<[lower element := stored_value element v]> data).
Proof.
  intros (Hd & Hy & Hmax & Hmin & Hp & Hs) He Hv.
  pose proof (truncated_sum_range v Hv) as Ht.
  unfold entry_ok, temperature_in_range, raw_in_range in *.
  split; [exact Hd|]. split; [exact Hy|].
  destruct (in_strs_elements element He) as [-> | [-> | [-> | ->]]];
    change (lower "TMAX") with "tmax"; change (lower "TMIN") with "tmin";
    change (lower "PRCP") with "prcp"; change (lower "SNOW") with "snow";
    change (stored_value "TMAX" v) with (truncated_sum v);
    change (stored_value "TMIN" v) with (truncated_sum v);
    change (stored_value "PRCP" v) with v; change (stored_value "SNOW" v) with v;
    (split; [|split; [|split]]); intros x;
    rewrite ?lookup_insert_eq, ?lookup_insert_ne by done;
    first [by auto | intros [= <-]; lia].
Qed.

Lemma parse_day_entries MIN_YEAR y m element line day (records records' : records_t) :
  (forall d data, (d, data) ∈ records -> entry_ok MIN_YEAR d data) ->
  in_strs element ELEMENTS = true -> MIN_YEAR <= y ->
  parse_day y m element line day records = Ok records' ->
  forall d data, (d, data) ∈ records' -> entry_ok MIN_YEAR d data.
Proof.
  intros Hall He Hy H.
  destruct (parse_day_cases y m element line day records)
    as [E|(v & d0 & _ & Hv & Hd & E)]; rewrite E in H; injection H as <-; [exact Hall|].
  apply py_date_some in Hd as [-> Hvalid]. apply value_field_range in Hv.
  intros d data Hin. apply put_reading_elem in Hin as [Hin|(-> & [->|Hin])].
  - by apply Hall.
  - by apply entry_ok_empty.
  - destruct Hin as (data0 & [->|Hin] & ->).
    + apply entry_ok_put; [by apply entry_ok_empty|done|done].
    + apply entry_ok_put; [by apply Hall|done|done].
Qed.

Lemma parse_line_entries MIN_YEAR line (records records' : records_t) :
  (forall d data, (d, data) ∈ records -> entry_ok MIN_YEAR d data) ->
  parse_line MIN_YEAR line records = Ok records' ->
  forall d data, (d, data) ∈ records' -> entry_ok MIN_YEAR d data.
Proof.
  unfold parse_line. intros Hall H.
  destruct (String.length line <? 269)%nat; [by injection H as <-|].
  destruct (py_int (slice 11 15 line)) as [y|]; [|discriminate].
  cbn [bind or_value_error] in H.
  destruct (y <? MIN_YEAR) eqn:Ey; [by injection H as <-|]. apply Z.ltb_ge in Ey.
  destruct (py_int (slice 15 17 line)) as [m|]; [|discriminate].
  cbn [bind or_value_error] in H.
  destruct (in_strs (slice 17 21 line) ELEMENTS) eqn:He; cbn [negb] in H;
    [|by injection H as <-].
  revert Hall H.
  apply (for_each_invariant
           (fun r : records_t => forall d data, (d, data) ∈ r -> entry_ok MIN_YEAR d data)).
  intros day s s' Hs Hstep. by eapply parse_day_entries.
Qed.

Lemma build_records_entries MIN_YEAR file_content (records : records_t) :
  build_records MIN_YEAR file_content = Ok records ->
  forall d data, (d, data) ∈ records -> entry_ok MIN_YEAR d data.
Proof.
  unfold build_records. intros H. revert H.
  cut (forall d data, (d, data) ∈ ([] : records_t) -> entry_ok MIN_YEAR d data).
  - intros H0 H. revert H0 H.
    apply (for_each_invariant
             (fun r : records_t => forall d data, (d, data) ∈ r -> entry_ok MIN_YEAR d data)).
    intros line s s' Hs Hstep. by eapply parse_line_entries.
  - intros d data H. by apply elem_of_nil in H.
Qed.

Lemma parse_dly_file_rows MIN_YEAR file_content station rows r :
  parse_dly_file MIN_YEAR file_content station = Ok rows -> r ∈ rows ->
  exists d data,
    entry_ok MIN_YEAR d data /\ has_temperature data /\
    r = Row station d (month d) (day d)
            (data !! "tmax") (data !! "tmin") (data !! "prcp") (data !! "snow").
Proof.
  unfold parse_dly_file. intros H Hr.
  destruct (build_records MIN_YEAR file_content) as [records|] eqn:Hb; [|discriminate].
  cbn [bind] in H. injection H as <-.
  apply to_rows_elem in Hr as (d & data & Hin & Ht & ->).
  exists d, data. split; [|done]. by eapply build_records_entries.
Qed.

(** X2. Every row [parse_dly_file] returns carries the station it was
    given, a date that is a calendar date of a year not below
    [MIN_YEAR], the month and day of that date in its month and day
    columns, and at least one temperature. *)
Theorem rows_well_formed
    (MIN_YEAR : Z) (file_content station : string) (rows : list row) :
  parse_dly_file MIN_YEAR file_content station = Ok rows ->
  Forall (fun r =>
            station_id r = station /\
            valid_calendar_date (year (obs_date r)) (month (obs_date r)) (day (obs_date r)) /\
            MIN_YEAR <= year (obs_date r) /\
            obs_month r = month (obs_date r) /\ obs_day r = day (obs_date r) /\
            (is_Some (tmax r) \/ is_Some (tmin r))) rows.
Proof.
  intros H. apply Forall_forall. intros r Hr.
  destruct (parse_dly_file_rows _ _ _ _ _ H Hr) as (d & data & (Hv & Hy & _) & Ht & ->).
  simpl. split; [reflexivity|]. split; [exact Hv|]. split; [exact Hy|].
  split; [reflexivity|]. split; [reflexivity|]. exact Ht.
Qed.

Lemma rows_well_formed_witness :
  Forall (fun r =>
            station_id r = sample_station /\
            valid_calendar_date (year (obs_date r)) (month (obs_date r)) (day (obs_date r)) /\
            2001 <= year (obs_date r) /\
            obs_month r = month (obs_date r) /\ obs_day r = day (obs_date r) /\
            (is_Some (tmax r) \/ is_Some (tmin r)))
         [Row sample_station (Date 2020 3 1) 3 1 (Some 590) None (Some 10) None].
Proof.
  apply (rows_well_formed 2001 sample_file sample_station). vm_compute. reflexivity.
Defined.

(** X3. The values of a returned row are bounded by what a five-character
    field can hold: precipitation and snowfall lie between -9999 and
    99999, and a temperature, after conversion, between -17678 and
    180318. *)
Theorem stored_values_bounded
    (MIN_YEAR : Z) (file_content station : string) (rows : list row) :
  parse_dly_file MIN_YEAR file_content station = Ok rows ->
  Forall (fun r =>
            temperature_in_range (tmax r) /\ temperature_in_range (tmin r) /\
            raw_in_range (prcp r) /\ raw_in_range (snow r)) rows.
Proof.
  intros H. apply Forall_forall. intros r Hr.
  destruct (parse_dly_file_rows _ _ _ _ _ H Hr)
    as (d & data & (_ & _ & H1 & H2 & H3 & H4) & _ & ->).
  simpl. exact (conj H1 (conj H2 (conj H3 H4))).
Qed.

Lemma stored_values_bounded_witness :
  Forall (fun r =>
            temperature_in_range (tmax r) /\ temperature_in_range (tmin r) /\
            raw_in_range (prcp r) /\ raw_in_range (snow r))
         [Row sample_station (Date 2020 3 1) 3 1 (Some 590) None (Some 10) None].
Proof.
  apply (stored_values_bounded 2001 sample_file sample_station). vm_compute. reflexivity.
Defined.

(** ** One slot, one cell *)

(** X4. A reading touches only its own cell: after [parse_day] has read a
    value for an element and a date, that date holds under the element's
    lower-case name the value (converted for TMAX and TMIN, exactly as read
    for PRCP and SNOW), the other elements of the date are as before, and
    so is every other date. *)
Theorem reading_touches_only_its_cell
    (year month : Z) (element line : string) (day : nat) (records : records_t)
    (v : Z) (d : date) :
  value_field line day <> "-9999" ->
  py_int (value_field line day) = Some v ->
  py_date year month (Z.of_nat day) = Some d ->
  exists records',
    parse_day year month element line day records = Ok records' /\
    records_get d records' ≫= (.!! lower element) =
      Some (if in_strs element TEMPERATURES then truncated_sum v else v) /\
    (forall k, k <> lower element ->
               records_get d records' ≫= (.!! k) = records_get d records ≫= (.!! k)) /\
    (forall d', d' <> d -> records_get d' records' = records_get d' records).
Proof.
  intros Hs Hv Hd. eexists. split; [by apply parse_day_reading|].
  rewrite records_get_put_reading. cbn [mbind option_bind]. split; [|split].
  - by rewrite lookup_insert_eq.
  - intros k Hk. rewrite lookup_insert_ne by done.
    destruct (records_get d records); [reflexivity|]. cbn. apply lookup_empty.
  - intros d' Hd'. by apply records_get_put_reading_ne.
Qed.

Lemma reading_touches_only_its_cell_witness :
  exists records',
    parse_day 2020 3 "PRCP" (dly_line sample_station "2020" "03" "PRCP" ["00010"]) 1
              [(Date 2020 3 1, {["tmax" := 590]})] = Ok records' /\
    records_get (Date 2020 3 1) records' ≫= (.!! "prcp") = Some 10 /\
    records_get (Date 2020 3 1) records' ≫= (.!! "tmax") = Some 590.
Proof.
  assert (H1 : value_field (dly_line sample_station "2020" "03" "PRCP" ["00010"]) 1
               <> "-9999") by (by vm_compute).
  assert (H2 : py_int (value_field (dly_line sample_station "2020" "03" "PRCP" ["00010"]) 1)
               = Some 10) by reflexivity.
  assert (H3 : py_date 2020 3 (Z.of_nat 1) = Some (Date 2020 3 1)) by reflexivity.
  destruct (reading_touches_only_its_cell 2020 3 "PRCP" _ 1
              [(Date 2020 3 1, {["tmax" := 590]})] 10 (Date 2020 3 1) H1 H2 H3)
    as (records' & Hp & Hv & Hk & _).
  exists records'. split; [exact Hp|]. split; [exact Hv|].
  rewrite (Hk "tmax") by done. reflexivity.
Defined.

(** ** The conversion as a function of the reading *)

(** X5. On the values a field can hold the conversion never fails, is
    monotone (a higher reading never gives a lower stored value, so
    tmax >= tmin survives it), and its result, in tenths of a degree
    Fahrenheit, is less than one tenth away from the exact value
    [v * 9 / 5 + 320] and never further from zero than it. *)
Theorem conversion_monotone_and_close (v1 v2 : Z) :
  -9999 <= v1 -> v1 <= v2 -> v2 <= 99999 ->
  exists a b,
    to_tenths_fahrenheit v1 = Ok a /\ to_tenths_fahrenheit v2 = Ok b /\
    a <= b /\
    Z.abs (5 * a - (9 * v1 + 1600)) < 5 /\
    Z.abs (5 * a) <= Z.abs (9 * v1 + 1600).
Proof.
  intros H1 H12 H2. exists (truncated_sum v1), (truncated_sum v2).
  split; [apply to_tenths_fahrenheit_exact; lia|].
  split; [apply to_tenths_fahrenheit_exact; lia|].
  unfold truncated_sum. split; [apply Z.quot_le_mono; lia|].
  pose proof (Z.quot_rem' (v1 * 9 + 1600) 5) as Hq.
  destruct (Z.le_gt_cases 0 (v1 * 9 + 1600)) as [Hpos|Hneg].
  - pose proof (Z.rem_bound_pos_pos (v1 * 9 + 1600) 5 ltac:(lia) Hpos). lia.
  - pose proof (Z.rem_bound_pos_neg (v1 * 9 + 1600) 5 ltac:(lia) ltac:(lia)). lia.
Qed.

Lemma conversion_monotone_and_close_witness :
  exists a b,
    to_tenths_fahrenheit (-50) = Ok a /\ to_tenths_fahrenheit 37 = Ok b /\
    a <= b /\
    Z.abs (5 * a - (9 * -50 + 1600)) < 5 /\
    Z.abs (5 * a) <= Z.abs (9 * -50 + 1600).
Proof. apply (conversion_monotone_and_close (-50) 37); lia. Defined.

(** * Further properties of the loader *)

Lemma find_row_foldl_upsert_other rs : forall (tbl : table) k,
  k ∉ map key rs -> find_row k (foldl upsert tbl rs) = find_row k tbl.
Proof.
  induction rs as [|r rs IH]; intros tbl k Hk; [reflexivity|].
  simpl in *. apply not_elem_of_cons in Hk as [Hne Hk].
  rewrite IH by exact Hk. rewrite find_row_upsert. by rewrite decide_False.
Qed.

(** X6. Rows with pairwise distinct keys are always accepted by
    [insert_batch], and afterwards each of them can be read back: the row
    under its key carries its four values, and is the row itself when the
    key was new, or the old row with its month and day when it was not.
    Keys the batch does not mention read as before. *)
Theorem insert_batch_read_back (tbl : table) (records : list row) :
  NoDup (map key records) ->
  exists tbl',
    insert_batch tbl records = Ok tbl' /\
    (forall r, r ∈ records ->
       find_row (key r) tbl' =
       Some (match find_row (key r) tbl with
             | Some y => Row (station_id y) (obs_date y) (obs_month y) (obs_day y)
                             (tmax r) (tmin r) (prcp r) (snow r)
             | None => r
             end)) /\
    (forall k, k ∉ map key records -> find_row k tbl' = find_row k tbl).
Proof.
  intros Hnd. exists (foldl upsert tbl records).
  split; [by rewrite insert_batch_eq, pages_ok_NoDup|].
  split; [|intros k Hk; by apply find_row_foldl_upsert_other].
  revert tbl. induction records as [|r0 rs IH]; intros tbl r Hr;
    [by apply elem_of_nil in Hr|].
  simpl in Hnd. apply NoDup_cons in Hnd as [Hnotin Hnd]. simpl.
  apply elem_of_cons in Hr as [->|Hr].
  - rewrite find_row_foldl_upsert_other by exact Hnotin.
    rewrite find_row_upsert. by rewrite decide_True.
  - rewrite (IH Hnd (upsert tbl r0) r Hr). rewrite find_row_upsert.
    rewrite decide_False; [reflexivity|].
    intros Hk. apply Hnotin. rewrite <- Hk. apply list_elem_of_fmap. by exists r.
Qed.

Lemma insert_batch_read_back_witness :
  exists tbl',
    insert_batch [sample_row_1; sample_row_2] [sample_row_1_again; sample_row_3] = Ok tbl' /\
    find_row (key sample_row_1_again) tbl' =
      Some (Row sample_station (Date 2020 3 1) 3 1 (Some 612) (Some 433) None None) /\
    find_row (key sample_row_3) tbl' = Some sample_row_3 /\
    find_row (key sample_row_2) tbl' = Some sample_row_2.
Proof.
  assert (Hnd : NoDup (map key [sample_row_1_again; sample_row_3])).
  { apply (bool_decide_unpack _). by vm_compute. }
  destruct (insert_batch_read_back [sample_row_1; sample_row_2] _ Hnd)
    as (tbl' & Hi & Hr & Hk).
  exists tbl'. split; [exact Hi|]. split; [|split].
  - rewrite (Hr sample_row_1_again) by (by left). reflexivity.
  - rewrite (Hr sample_row_3) by (right; by left). reflexivity.
  - rewrite (Hk (key sample_row_2)); [reflexivity|].
    apply (bool_decide_unpack _). by vm_compute.
Defined.

(** X7. The batch size decides how the rows are cut into batches and
    nothing else: whenever two runs of the loader over the same station
    files end without an error, whatever their thresholds, they leave the
    same table; and rows with pairwise distinct keys never make a run
    fail. *)
Theorem batch_size_does_not_change_the_table
    (parsed : list (list row)) (tbl : table) :
  (forall BATCH_SIZE_1 BATCH_SIZE_2 st1 st2,
      import_batches BATCH_SIZE_1 parsed tbl = Ok st1 ->
      import_batches BATCH_SIZE_2 parsed tbl = Ok st2 ->
      ld_table st1 = ld_table st2) /\
  (forall BATCH_SIZE,
      NoDup (map key (concat parsed)) ->
      exists st, import_batches BATCH_SIZE parsed tbl = Ok st /\
                 forall r, r ∈ concat parsed -> is_Some (find_row (key r) (ld_table st))).
Proof.
  split.
  - intros T1 T2 st1 st2 H1 H2.
    apply import_batches_run in H1 as (_ & _ & -> & _).
    apply import_batches_run in H2 as (_ & _ & -> & _). reflexivity.
  - intros T Hnd. destruct (import_batches_total T parsed tbl Hnd) as [st Hst].
    exists st. split; [exact Hst|]. intros r Hr.
    apply import_batches_run in Hst as (_ & _ & -> & _).
    pose proof (foldl_upsert_keys_in (concat parsed) tbl r Hr) as Hk.
    apply list_elem_of_fmap in Hk as (x & Hx & Hin).
    unfold find_row. destruct (find _ _) as [y|] eqn:E; [by eexists|].
    apply list_elem_of_In in Hin. pose proof (find_none _ _ E x Hin) as Hf.
    simpl in Hf. by rewrite bool_decide_eq_true_2 in Hf.
Qed.

(** ** The loader on the archive *)

Lemma import_members_parsed MIN_YEAR T members parsed :
  Forall2 (fun m p => parse_dly_file MIN_YEAR m.2 m.1 = Ok p) members parsed ->
  forall st0,
    for_each (fun '(station, content) st =>
                let* records := parse_dly_file MIN_YEAR content station in
                import_records T records st) members st0 =
    for_each (import_records T) parsed st0.
Proof.
  induction 1 as [|[station content] p members parsed Hp _ IH]; intros st0;
    [reflexivity|].
  cbn [for_each]. simpl in Hp. rewrite Hp. cbn [bind].
  destruct (import_records T p st0); [apply IH|reflexivity].
Qed.

Lemma import_members_ok MIN_YEAR T members : forall st0 st,
  for_each (fun '(station, content) st =>
              let* records := parse_dly_file MIN_YEAR content station in
              import_records T records st) members st0 = Ok st ->
  exists parsed,
    Forall2 (fun m p => parse_dly_file MIN_YEAR m.2 m.1 = Ok p) members parsed.
Proof.
  induction members as [|[station content] members IH]; intros st0 st H.
  - exists []. constructor.
  - cbn [for_each] in H.
    destruct (parse_dly_file MIN_YEAR content station) as [p|] eqn:Hp; [|discriminate].
    cbn [bind] in H. destruct (import_records T p st0) as [st1|]; [|discriminate].
    cbn [bind] in H. destruct (IH _ _ H) as [parsed Hparsed].
    exists (p :: parsed). by constructor.
Qed.

(** X8. A run of [import_weather_data] that ends without an error is the
    batching loop run on the rows parsed from the station files, in order;
    it leaves every parsed row readable under its key, and run again on the
    same archive from the table it left, it ends in the same state. *)
Theorem import_weather_data_rerun
    (MIN_YEAR BATCH_SIZE : Z) (members : list (string * string)) (tbl : table)
    (st : loader) :
  import_weather_data MIN_YEAR BATCH_SIZE members tbl = Ok st ->
  (exists parsed,
      Forall2 (fun m p => parse_dly_file MIN_YEAR m.2 m.1 = Ok p) members parsed /\
      import_batches BATCH_SIZE parsed tbl = Ok st /\
      concat (ld_flushes st) = concat parsed /\
      forall r, r ∈ concat parsed -> is_Some (find_row (key r) (ld_table st))) /\
  import_weather_data MIN_YEAR BATCH_SIZE members (ld_table st) = Ok st.
Proof.
  unfold import_weather_data. intros H.
  destruct (for_each _ members (Loader tbl [] [])) as [st1|] eqn:E; [|discriminate].
  destruct (import_members_ok _ _ _ _ _ E) as [parsed Hparsed].
  assert (Hb : import_batches BATCH_SIZE parsed tbl = Ok st).
  { unfold import_batches. rewrite <- (import_members_parsed _ _ _ _ Hparsed), E.
    exact H. }
  pose proof (import_batches_run _ _ _ _ Hb) as (Hbatch & Hfl & Htbl & _ & _ & Hrun).
  split.
  - exists parsed. repeat split; try done. intros r Hr. rewrite Htbl.
    pose proof (foldl_upsert_keys_in (concat parsed) tbl r Hr) as Hk.
    apply list_elem_of_fmap in Hk as (x & Hx & Hin).
    unfold find_row. destruct (find _ _) as [y|] eqn:Ef; [by eexists|].
    apply list_elem_of_In in Hin. pose proof (find_none _ _ Ef x Hin) as Hf.
    simpl in Hf. by rewrite bool_decide_eq_true_2 in Hf.
  - rewrite (import_members_parsed _ _ _ _ Hparsed).
    fold (import_batches BATCH_SIZE parsed (ld_table st)).
    rewrite Hrun, Htbl, foldl_upsert_idempotent, <- Htbl, <- Hbatch. by destruct st.
Qed.

Lemma import_weather_data_rerun_witness :
  exists st,
    import_weather_data 2001 10000 [(sample_station, sample_file)] [] = Ok st /\
    import_weather_data 2001 10000 [(sample_station, sample_file)] (ld_table st) = Ok st.
Proof.
  eexists. split; [vm_compute; reflexivity|].
  eapply (proj2 (import_weather_data_rerun 2001 10000 [(sample_station, sample_file)] [] _ _)).
  Unshelve. vm_compute. reflexivity.
Defined.

(** * Further properties of the station list *)

Section StationListProperties.

Variable py_float : string -> option float.

Lemma decode_station_kept line s :
  decode_station py_float line = Ok (Some s) ->
  startswith "US" (strip (slice 0 11 line)) = true /\
  st_id s = strip (slice 0 11 line) /\ st_name s = strip (slice 41 71 line).
Proof.
  unfold decode_station.
  destruct (startswith "US" (strip (slice 0 11 line))); [|discriminate].
  cbn [negb]. destruct (py_float (strip (slice 12 20 line))); [|discriminate].
  destruct (py_float (strip (slice 21 30 line))); [|discriminate].
  cbn [bind or_value_error].
  destruct (strip (slice 31 37 line)) as [|c e].
  - cbn [bind]. by intros [= <-].
  - destruct (py_float (String c e)); [|discriminate]. cbn [bind or_value_error].
    by intros [= <-].
Qed.

Lemma decode_station_dropped line :
  decode_station py_float line = Ok None ->
  startswith "US" (strip (slice 0 11 line)) = false.
Proof.
  unfold decode_station.
  destruct (startswith "US" (strip (slice 0 11 line))); [|done].
  cbn [negb]. destruct (py_float (strip (slice 12 20 line))); [|discriminate].
  destruct (py_float (strip (slice 21 30 line))); [|discriminate].
  cbn [bind or_value_error].
  destruct (strip (slice 31 37 line)) as [|c e]; [discriminate|].
  destruct (py_float (String c e)); discriminate.
Qed.

(** X9. The stations [download_stations] collects are, in the order of the
    lines, exactly the trimmed identifiers that start with [US]; each
    identifier has at most 11 characters and each name at most 30. *)
Theorem decoded_stations_are_the_us_lines (lines : list string) (stations : list station) :
  decode_stations py_float lines = Ok stations ->
  map st_id stations =
    filter (fun id => startswith "US" id = true)
           (map (fun line => strip (slice 0 11 line)) lines) /\
  Forall (fun s => (String.length (st_id s) <= 11)%nat /\
                   (String.length (st_name s) <= 30)%nat) stations.
Proof.
  revert stations. induction lines as [|line lines IH]; intros stations H.
  - simpl in H. injection H as <-. split; [reflexivity|constructor].
  - cbn [decode_stations] in H.
    destruct (decode_station py_float line) as [o|] eqn:Hd; [|discriminate].
    cbn [bind] in H.
    destruct (decode_stations py_float lines) as [ss|]; [|discriminate].
    cbn [bind] in H. injection H as <-. destruct (IH ss eq_refl) as [Hids Hlen].
    cbn [map]. destruct o as [s|].
    + apply decode_station_kept in Hd as (Hus & Hid & Hname).
      rewrite filter_cons_True by exact Hus. cbn [map]. rewrite Hids, Hid.
      split; [reflexivity|]. constructor; [|exact Hlen].
      rewrite Hid, Hname. split.
      * etrans; [apply strip_length|]. etrans; [apply slice_length|]. lia.
      * etrans; [apply strip_length|]. etrans; [apply slice_length|]. lia.
    + apply decode_station_dropped in Hd.
      rewrite filter_cons_False by (by rewrite Hd). done.
Qed.

End StationListProperties.

Lemma decoded_stations_are_the_us_lines_witness :
  exists stations,
    decode_stations plain_decimal [sample_foreign_station_line; sample_us_station_line]
      = Ok stations /\
    map st_id stations = ["US1MNCV0008"].
Proof.
  destruct (decode_stations plain_decimal
              [sample_foreign_station_line; sample_us_station_line])
    as [stations|] eqn:E; [|vm_compute in E; discriminate].
  exists stations. split; [reflexivity|].
  rewrite (proj1 (decoded_stations_are_the_us_lines plain_decimal _ _ E)).
  vm_compute. reflexivity.
Defined.

(** * The date ranges of the stations *)

Lemma date_leb_refl a : date_leb a a = true.
Proof.
  unfold date_leb. rewrite !orb_true_iff, !andb_true_iff, !orb_true_iff, !andb_true_iff.
  rewrite !Z.ltb_lt, !Z.eqb_eq, Z.leb_le. lia.
Qed.

Lemma date_leb_trans a b c : date_leb a b = true -> date_leb b c = true -> date_leb a c = true.
Proof.
  unfold date_leb. rewrite !orb_true_iff, !andb_true_iff, !orb_true_iff, !andb_true_iff.
  rewrite !Z.ltb_lt, !Z.eqb_eq, !Z.leb_le. lia.
Qed.

Lemma date_leb_total a b : date_leb a b = true \/ date_leb b a = true.
Proof.
  unfold date_leb. rewrite !orb_true_iff, !andb_true_iff, !orb_true_iff, !andb_true_iff.
  rewrite !Z.ltb_lt, !Z.eqb_eq, !Z.leb_le. lia.
Qed.

Lemma foldl_date_min rest : forall d,
  (foldl date_min d rest = d \/ foldl date_min d rest ∈ rest) /\
  date_leb (foldl date_min d rest) d = true /\
  forall x, x ∈ rest -> date_leb (foldl date_min d rest) x = true.
Proof.
  induction rest as [|y rest IH]; intros d; simpl.
  - split; [by left|]. split; [apply date_leb_refl|]. intros x Hx. by apply elem_of_nil in Hx.
  - destruct (IH (date_min d y)) as (Hin & Hle & Hall).
    assert (Hd : date_leb (date_min d y) d = true /\ date_leb (date_min d y) y = true).
    { unfold date_min. destruct (date_leb d y) eqn:E.
      - split; [apply date_leb_refl|exact E].
      - split; [|apply date_leb_refl]. by destruct (date_leb_total d y) as [?|?]; [congruence|]. }
    destruct Hd as [Hd Hy]. split; [|split].
    + destruct Hin as [->|Hin]; [|right; by right].
      unfold date_min. destruct (date_leb d y); [by left|right; left].
    + by eapply date_leb_trans.
    + intros x Hx. apply elem_of_cons in Hx as [->|Hx]; [|by apply Hall].
      by eapply date_leb_trans.
Qed.

Lemma foldl_date_max rest : forall d,
  (foldl date_max d rest = d \/ foldl date_max d rest ∈ rest) /\
  date_leb d (foldl date_max d rest) = true /\
  forall x, x ∈ rest -> date_leb x (foldl date_max d rest) = true.
Proof.
  induction rest as [|y rest IH]; intros d; simpl.
  - split; [by left|]. split; [apply date_leb_refl|]. intros x Hx. by apply elem_of_nil in Hx.
  - destruct (IH (date_max d y)) as (Hin & Hle & Hall).
    assert (Hd : date_leb d (date_max d y) = true /\ date_leb y (date_max d y) = true).
    { unfold date_max. destruct (date_leb d y) eqn:E.
      - split; [exact E|apply date_leb_refl].
      - split; [apply date_leb_refl|]. by destruct (date_leb_total d y) as [?|?]; [congruence|]. }
    destruct Hd as [Hd Hy]. split; [|split].
    + destruct Hin as [->|Hin]; [|right; by right].
      unfold date_max. destruct (date_leb d y); [right; left|by left].
    + by eapply date_leb_trans.
    + intros x Hx. apply elem_of_cons in Hx as [->|Hx]; [|by apply Hall].
      by eapply date_leb_trans.
Qed.

Lemma date_range_spec ds lo hi :
  date_range ds = Some (lo, hi) ->
  lo ∈ ds /\ hi ∈ ds /\
  forall x, x ∈ ds -> date_leb lo x = true /\ date_leb x hi = true.
Proof.
  destruct ds as [|d rest]; [discriminate|]. simpl. intros [= <- <-].
  destruct (foldl_date_min rest d) as (Hmin & Hmd & Hmall).
  destruct (foldl_date_max rest d) as (Hmax & Hxd & Hxall).
  split; [destruct Hmin as [->|?]; [left|by right]|].
  split; [destruct Hmax as [->|?]; [left|by right]|].
  intros x Hx. apply elem_of_cons in Hx as [->|Hx]; [done|].
  split; [by apply Hmall|by apply Hxall].
Qed.

Lemma station_dates_elem id (weather : table) d :
  d ∈ station_dates id weather <-> exists r, r ∈ weather /\ station_id r = id /\ obs_date r = d.
Proof.
  unfold station_dates. rewrite list_elem_of_fmap. split.
  - intros (r & -> & Hr). apply list_elem_of_filter in Hr as [Hid Hr]. by exists r.
  - intros (r & Hr & Hid & <-). exists r. split; [reflexivity|].
    by apply list_elem_of_filter.
Qed.

(** X10. After [update_station_date_ranges] every station has the
    identifier, name, position and elevation it had; a station with rows in
    [weather_daily] has as [min_date] and [max_date] two dates of its own
    rows that enclose the dates of all of them; a station without rows is
    as it was; and running the update again changes nothing. *)
Theorem date_ranges_enclose_observations (stations : list station_row) (weather : table) :
  Forall2 (fun s s' =>
             sr_id s' = sr_id s /\ sr_name s' = sr_name s /\
             sr_latitude s' = sr_latitude s /\ sr_longitude s' = sr_longitude s /\
             sr_elevation s' = sr_elevation s /\
             (station_dates (sr_id s) weather = [] -> s' = s) /\
             (forall r, r ∈ weather -> station_id r = sr_id s ->
                exists lo hi,
                  sr_min_date s' = Some lo /\ sr_max_date s' = Some hi /\
                  lo ∈ station_dates (sr_id s) weather /\
                  hi ∈ station_dates (sr_id s) weather /\
                  date_leb lo (obs_date r) = true /\ date_leb (obs_date r) hi = true))
          stations (update_station_date_ranges stations weather) /\
  update_station_date_ranges (update_station_date_ranges stations weather) weather =
  update_station_date_ranges stations weather.
Proof.
  split.
  - unfold update_station_date_ranges. induction stations as [|s stations IH];
      [constructor|]. cbn [map]. constructor; [|exact IH].
    destruct (date_range (station_dates (sr_id s) weather)) as [[lo hi]|] eqn:E.
    + cbn [sr_id sr_name sr_latitude sr_longitude sr_elevation sr_min_date sr_max_date].
      repeat split; try done.
      * intros Hnil. rewrite Hnil in E. discriminate.
      * intros r Hr Hid. apply date_range_spec in E as (Hlo & Hhi & Hall).
        exists lo, hi. repeat split; try done;
          apply Hall, station_dates_elem; by exists r.
    + repeat split; try done. intros r Hr Hid. exfalso.
      assert (Hd : obs_date r ∈ station_dates (sr_id s) weather)
        by (apply station_dates_elem; by exists r).
      destruct (station_dates (sr_id s) weather); [by apply elem_of_nil in Hd|discriminate].
  - unfold update_station_date_ranges. rewrite map_map. apply map_ext. intros s.
    destruct (date_range (station_dates (sr_id s) weather)) as [[lo hi]|] eqn:E.
    + cbn [sr_id sr_name sr_latitude sr_longitude sr_elevation]. by rewrite E.
    + by rewrite E.
Qed.

(** * The station list in the database *)

Section StationsTableProperties.

Variable default_min_date default_max_date : option date.
Variable py_float : string -> option float.

Local Abbreviation upsert_station' := (upsert_station default_min_date default_max_date).

Lemma decode_stations_ids lines : forall stations,
  decode_stations py_float lines = Ok stations ->
  map st_id stations =
    filter (fun id => startswith "US" id = true)
           (map (fun line => strip (slice 0 11 line)) lines).
Proof.
  induction lines as [|line lines IH]; intros stations H.
  - simpl in H. by injection H as <-.
  - cbn [decode_stations] in H.
    destruct (decode_station py_float line) as [o|] eqn:Hd; [|discriminate].
    cbn [bind] in H.
    destruct (decode_stations py_float lines) as [ss|]; [|discriminate].
    cbn [bind] in H. injection H as <-. cbn [map]. destruct o as [s|].
    + apply decode_station_kept in Hd as (Hus & Hid & _).
      rewrite filter_cons_True by exact Hus. cbn [map]. by rewrite (IH ss), Hid.
    + apply decode_station_dropped in Hd.
      rewrite filter_cons_False by (by rewrite Hd). by apply IH.
Qed.

Lemma station_update_frame e x :
  sr_id (station_update e x) = sr_id x /\
  sr_min_date (station_update e x) = sr_min_date x /\
  sr_max_date (station_update e x) = sr_max_date x.
Proof. unfold station_update. by case_bool_decide. Qed.

Lemma upsert_station_keeps (tbl : list station_row) e x :
  x ∈ tbl ->
  exists y, y ∈ upsert_station' tbl e /\ sr_id y = sr_id x /\
            sr_min_date y = sr_min_date x /\ sr_max_date y = sr_max_date x.
Proof.
  intros Hx. unfold upsert_station. destruct (station_conflicts e tbl).
  - exists (station_update e x). split; [|apply station_update_frame].
    apply list_elem_of_fmap. by exists x.
  - exists x. split; [|done]. apply elem_of_app. by left.
Qed.

Lemma upsert_station_has (tbl : list station_row) e :
  exists y, y ∈ upsert_station' tbl e /\ sr_id y = st_id e /\ sr_name y = st_name e.
Proof.
  unfold upsert_station. destruct (station_conflicts e tbl) eqn:E.
  - unfold station_conflicts in E. apply existsb_exists in E as (x & Hx & Hid).
    apply bool_decide_eq_true in Hid. exists (station_update e x).
    split; [apply list_elem_of_fmap; exists x; split; [done|by apply list_elem_of_In]|].
    unfold station_update. by rewrite bool_decide_eq_true_2.
  - eexists. split; [apply elem_of_app; right; by apply list_elem_of_singleton|done].
Qed.

Lemma foldl_upsert_station_keeps stations : forall (tbl : list station_row) x,
  x ∈ tbl ->
  exists y, y ∈ foldl upsert_station' tbl stations /\ sr_id y = sr_id x /\
            sr_min_date y = sr_min_date x /\ sr_max_date y = sr_max_date x.
Proof.
  induction stations as [|e stations IH]; intros tbl x Hx; simpl; [by exists x|].
  destruct (upsert_station_keeps tbl e x Hx) as (y & Hy & Hid & Hmin & Hmax).
  destruct (IH _ y Hy) as (z & Hz & Hid' & Hmin' & Hmax').
  exists z. split; [exact Hz|]. by rewrite Hid', Hmin', Hmax'.
Qed.

Lemma foldl_upsert_station_has stations : forall (tbl : list station_row) e,
  e ∈ stations -> exists y, y ∈ foldl upsert_station' tbl stations /\ sr_id y = st_id e.
Proof.
  induction stations as [|e0 stations IH]; intros tbl e He; [by apply elem_of_nil in He|].
  simpl. apply elem_of_cons in He as [->|He]; [|by apply IH].
  destruct (upsert_station_has tbl e0) as (y & Hy & Hid & _).
  destruct (foldl_upsert_station_keeps stations _ y Hy) as (z & Hz & Hid' & _).
  exists z. split; [exact Hz|]. by rewrite Hid'.
Qed.

Lemma for_each_insert_stations pages : forall tbl tbl',
  for_each (insert_stations_statement default_min_date default_max_date) pages tbl = Ok tbl' ->
  tbl' = foldl upsert_station' tbl (concat pages).
Proof.
  induction pages as [|page pages IH]; intros tbl tbl' H; simpl in H.
  - by injection H as <-.
  - unfold insert_stations_statement at 1 in H. case_bool_decide; [|discriminate].
    cbn [bind] in H. apply IH in H. subst tbl'. cbn [concat]. by rewrite foldl_app.
Qed.

(** X11. When [download_stations] ends without an error, the set it
    returns holds exactly the trimmed identifiers of the lines that start
    with [US], each of them is the identifier of a row of the table, and
    every station that was in the table is still there with the date range
    it had. *)
Theorem download_stations_keeps_date_ranges
    (lines : list string) (tbl tbl' : list station_row) (ids : gset string) :
  download_stations default_min_date default_max_date py_float lines tbl = Ok (tbl', ids) ->
  (forall id, id ∈ ids <->
              startswith "US" id = true /\
              exists line, line ∈ lines /\ strip (slice 0 11 line) = id) /\
  (forall id, id ∈ ids -> exists y, y ∈ tbl' /\ sr_id y = id) /\
  (forall x, x ∈ tbl ->
             exists y, y ∈ tbl' /\ sr_id y = sr_id x /\
                       sr_min_date y = sr_min_date x /\ sr_max_date y = sr_max_date x).
Proof.
  unfold download_stations, import_stations. intros H.
  destruct (decode_stations py_float lines) as [stations|] eqn:Hd; [|discriminate].
  cbn [bind] in H.
  destruct (for_each _ _ tbl) as [t|] eqn:Hf; [|discriminate].
  cbn [bind] in H. injection H as <- <-.
  apply for_each_insert_stations in Hf. rewrite paginate_concat in Hf. simpl in Hf.
  subst t. pose proof (decode_stations_ids lines stations Hd) as Hids.
  split; [|split].
  - intros id. rewrite elem_of_list_to_set, Hids, list_elem_of_filter, list_elem_of_fmap.
    split.
    + intros (Hus & line & -> & Hl). split; [exact Hus|]. by exists line.
    + intros (Hus & line & Hl & <-). split; [exact Hus|]. by exists line.
  - intros id Hid. apply elem_of_list_to_set, list_elem_of_fmap in Hid as (e & -> & He).
    by apply foldl_upsert_station_has.
  - intros x Hx. by apply foldl_upsert_station_keeps.
Qed.

End StationsTableProperties.

Lemma download_stations_keeps_date_ranges_witness :
  exists tbl' ids,
    download_stations None None plain_decimal
      [sample_foreign_station_line; sample_us_station_line]
      [StationRow "US1MNCV0008" "OLD NAME" (float_of_int 0) (float_of_int 0) None
                  (Some (Date 2011 5 1)) (Some (Date 2020 3 1))] = Ok (tbl', ids) /\
    exists y, y ∈ tbl' /\ sr_id y = "US1MNCV0008" /\
              sr_min_date y = Some (Date 2011 5 1) /\
              sr_max_date y = Some (Date 2020 3 1).
Proof.
  destruct (download_stations None None plain_decimal
              [sample_foreign_station_line; sample_us_station_line]
              [StationRow "US1MNCV0008" "OLD NAME" (float_of_int 0) (float_of_int 0) None
                          (Some (Date 2011 5 1)) (Some (Date 2020 3 1))])
    as [[tbl' ids]|] eqn:E; [|vm_compute in E; discriminate].
  exists tbl', ids. split; [reflexivity|].
  destruct (download_stations_keeps_date_ranges None None plain_decimal _ _ _ _ E)
    as (_ & _ & Hkeep).
  apply (Hkeep (StationRow "US1MNCV0008" "OLD NAME" (float_of_int 0) (float_of_int 0) None
                           (Some (Date 2011 5 1)) (Some (Date 2020 3 1)))).
  left.
Defined.

(** * How many rows a file can give *)

Lemma for_each_growth {A St} (size : St -> nat) (body : A -> St -> result St) xs :
  (forall x s s', body x s = Ok s' -> (size s' <= S (size s))%nat) ->
  forall s s', for_each body xs s = Ok s' -> (size s' <= size s + length xs)%nat.
Proof.
  intros Hstep. induction xs as [|x xs IH]; intros s s' H; simpl in H.
  - injection H as <-. lia.
  - destruct (body x s) as [s1|] eqn:E; [|discriminate]. cbn [bind] in H.
    apply IH in H. apply Hstep in E. simpl. lia.
Qed.

Lemma parse_day_growth year month element line day (records records' : records_t) :
  parse_day year month element line day records = Ok records' ->
  (length records' <= S (length records))%nat.
Proof.
  intros H.
  destruct (parse_day_cases year month element line day records)
    as [E|(v & d & _ & _ & _ & E)]; rewrite E in H; injection H as <-; [lia|].
  pose proof (put_reading_dates d (lower element) (stored_value element v) records) as Hd.
  apply (f_equal length) in Hd. unfold dates in Hd. rewrite length_map in Hd.
  rewrite Hd. destruct (records_mem d records);
    rewrite ?length_app, ?length_map; simpl; lia.
Qed.

Lemma parse_line_growth MIN_YEAR line (records records' : records_t) :
  parse_line MIN_YEAR line records = Ok records' ->
  (length records' <=
   length records + if decide (269 <= String.length line)%nat then 31 else 0)%nat.
Proof.
  intros H. destruct (decide (269 <= String.length line)%nat) as [Hlen|Hlen].
  - apply parse_line_days in H as [->|(y & m & _ & _ & H)]; [lia|].
    apply (for_each_growth (fun r : records_t => length r)) in H; [exact H|].
    intros day s s'. apply parse_day_growth.
  - unfold parse_line in H.
    replace (String.length line <? 269)%nat with true in H
      by (symmetry; apply Nat.ltb_lt; lia).
    injection H as <-. lia.
Qed.

Lemma parse_lines_growth MIN_YEAR lines : forall records records' : records_t,
  for_each (parse_line MIN_YEAR) lines records = Ok records' ->
  (length records' <=
   length records +
   31 * length (filter (fun line => (269 <= String.length line)%nat) lines))%nat.
Proof.
  induction lines as [|line lines IH]; intros records records' H; simpl in H.
  - injection H as <-. simpl. lia.
  - destruct (parse_line MIN_YEAR line records) as [r1|] eqn:E; [|discriminate].
    cbn [bind] in H. apply IH in H. apply parse_line_growth in E.
    destruct (decide (269 <= String.length line)%nat) as [Hlen|Hlen].
    + rewrite filter_cons_True by exact Hlen. simpl. lia.
    + rewrite filter_cons_False by exact Hlen. lia.
Qed.

Lemma to_rows_length station (records : records_t) :
  (length (to_rows station records) <= length records)%nat.
Proof.
  induction records as [|[d data] rest IH]; simpl; [lia|].
  destruct (_ || _); simpl; lia.
Qed.

(** X12. A station file gives at most 31 rows for each of its lines of at
    least 269 characters; a file without such a line gives none. *)
Theorem rows_bounded_by_lines
    (MIN_YEAR : Z) (file_content station : string) (rows : list row) :
  parse_dly_file MIN_YEAR file_content station = Ok rows ->
  (length rows <= 31 * length (long_lines file_content))%nat /\
  (long_lines file_content = [] -> rows = []).
Proof.
  unfold parse_dly_file, build_records, long_lines. intros H.
  destruct (for_each _ _ []) as [records|] eqn:E; [|discriminate].
  cbn [bind] in H. injection H as <-. apply parse_lines_growth in E. simpl in E.
  pose proof (to_rows_length station records) as Hl.
  split; [lia|]. intros Hnil. rewrite Hnil in E. simpl in E.
  destruct (to_rows station records); [reflexivity|simpl in Hl; lia].
Qed.

Lemma rows_bounded_by_lines_witness :
  (length [sample_row_1] <= 31 * length (long_lines sample_file))%nat.
Proof.
  apply (rows_bounded_by_lines 2001 sample_file sample_station). vm_compute. reflexivity.
Defined.
